(** * SWCClient: the SportsWorldCentral SDK client (chapter7/sdk/src/swcpy/swc_client.py)

    A shallow embedding of the [SWCClient] class: its constructor
    ([__init__]) and its single call path ([call_api]), with the optional
    retry-wrapped alias [get_url].

    Reading notes on the source.
    - The body of [call_api] is printed one indentation level short in the
      source file; it is read here as the body of the method.
    - Python dictionaries are finite maps with unique keys: [gmap string _].
    - Logging and the HTTP exchange are the only effects; both are recorded
      in an explicit [World] that every operation threads through.
      Leaving the [with] block closes the client and is taken not to
      raise.
    - The libraries [httpx] and [backoff] are not part of the repository.
      Whether [httpx] accepts a base URL is a parameter ([invalid_url]),
      and so is what an HTTP attempt answers ([send]).  What the retry
      decorator does with its target is a parameter ([retry]); the loop
      that the specification describes for it is [on_exception]. *)

From Stdlib Require Import ZArith Ascii String.
From stdpp Require Import base option numbers list strings gmap fin_maps.

Local Open Scope string_scope.
Local Open Scope list_scope.
Local Open Scope Z_scope.

(* ===================================================================== *)
(** ** Python strings *)
(* ===================================================================== *)

Module PyStr.

(** [c] is one of the letters A..Z. *)
Definition is_upper (c : ascii) : bool :=
  let n := nat_of_ascii c in (Nat.leb 65 n && Nat.leb n 90)%bool.

(** [str.lower()] on one character.  Only the letters A..Z change; the
    code compares the result with the ASCII word parquet, and no
    character outside A..Z lowercases to one of its letters. *)
Definition lower_char (c : ascii) : ascii :=
  if is_upper c then ascii_of_nat (nat_of_ascii c + 32)%nat else c.

(** [s.lower()] *)
Fixpoint lower (s : string) : string :=
  match s with
  | EmptyString => EmptyString
  | String c s' => String (lower_char c) (lower s')
  end.

(** [s] ends in [suffix]. *)
Definition endswith (s suffix : string) : Prop :=
  exists stem : string, s = stem +:+ suffix.

End PyStr.

(* ===================================================================== *)
(** ** Python values, dictionaries and exceptions *)
(* ===================================================================== *)

(** Values a caller can put in a parameter dictionary. *)
Inductive PyVal :=
| PyNone
| PyBool (b : bool)
| PyInt (n : Z)
| PyString (s : string).

#[global] Instance PyVal_eq_dec : EqDecision PyVal.
Proof. solve_decision. Defined.

(** [val is not None] *)
Definition is_not_None (val : PyVal) : bool :=
  match val with
  | PyNone => false
  | _ => true
  end.

(** A dictionary comprehension
    [{key: expr for key, val in d.items() if cond}]:
    the items of [d] are visited one by one and every item that passes the
    condition is stored in a dictionary that starts empty. *)
Definition dict_comp {A B : Type}
    (cond : string -> A -> bool) (expr : string -> A -> B)
    (d : gmap string A) : gmap string B :=
  map_fold (fun key val acc =>
              if cond key val then <[key := expr key val]> acc else acc)
           ∅ d.

#[local] Set Warnings "-register-all".

(** A decoded JSON document, as [response.json()] hands it over. *)
Inductive JSON :=
| JNull
| JBool (b : bool)
| JNumber (n : Z)
| JString (s : string)
| JArray (items : list JSON)
| JObject (members : list (string * JSON)).

Module Httpx.

(** What the client hands over to [httpx] for one GET:
    [httpx.Client(base_url=...)] and [client.get(url, params=...)].
    [params] is [None] when the caller passed no dictionary. *)
Record Request := {
  base_url : string;
  url : string;
  params : option (gmap string PyVal)
}.

(** Why [response.json()] fails on a body: the text is not a JSON
    document ([json.JSONDecodeError], with the message of the parser), the
    bytes are not text in the detected encoding ([UnicodeDecodeError]),
    or the decoder gives up with an exception of another class. *)
Inductive DecodeError :=
| NotJSON (message : string)
| NotUnicode (message : string)
| DecoderFailed (class message : string).

(** An [httpx.Response] as the client observes it: its status line,
    headers and body, and what its [json()] method does with the body:
    it yields the document, or it raises. *)
Record Response := {
  status_code : Z;
  headers : list (string * string);
  text : string;
  decoded : JSON + DecodeError
}.

(** The document [response.json()] yields, if it yields one. *)
Definition json (r : Response) : option JSON :=
  match decoded r with
  | inl j => Some j
  | inr _ => None
  end.

(** A status that reports a failure: 4xx or 5xx. *)
Definition is_error (r : Response) : bool :=
  (400 <=? status_code r) && (status_code r <=? 599).

End Httpx.

(** The exception classes that matter to the client.
    [HTTPStatusError] and [RequestError] are the two [httpx] classes named
    in the source; [InvalidURL] is what [httpx.Client] raises on a base
    URL it cannot parse; [JSONDecodeError] and [UnicodeDecodeError] are
    what [response.json()] raises; [AttributeError] is what a missing
    attribute raises. *)
Inductive Exn :=
| HTTPStatusError (message : string) (response : Httpx.Response)
| RequestError (message : string)
| InvalidURL (message : string)
| JSONDecodeError (message : string)
| UnicodeDecodeError (message : string)
| AttributeError (name : string)
| OtherError (class message : string).

(** The exception [response.json()] raises for a decoding error. *)
Definition decode_exn (err : Httpx.DecodeError) : Exn :=
  match err with
  | Httpx.NotJSON message => JSONDecodeError message
  | Httpx.NotUnicode message => UnicodeDecodeError message
  | Httpx.DecoderFailed class message => OtherError class message
  end.

(** The exception classes as values, for [except] clauses and for the
    [exception=] argument of the retry decorator. *)
Inductive ExnClass := HTTPStatusError_cls | RequestError_cls.

Definition isinstance (e : Exn) (c : ExnClass) : bool :=
  match e, c with
  | HTTPStatusError _ _, HTTPStatusError_cls => true
  | RequestError _, RequestError_cls => true
  | _, _ => false
  end.

(** How a call ends: it returns a value or raises. *)
Inductive PyResult (A : Type) :=
| Returned (a : A)
| Raised (e : Exn).
Arguments Returned {A} a.
Arguments Raised {A} e.

(* ===================================================================== *)
(** ** Configuration *)
(* ===================================================================== *)

Module Config.

(** Modelled from the spec: the class [swcpy.swc_config.SWCConfig] is
    imported by the client but is not among the source files.  Its four
    fields are the ones the constructor reads, typed as the spec's
    configuration surface lists them. *)
Record SWCConfig := {
  swc_base_url : string;
  swc_backoff : bool;
  swc_backoff_max_time : Z;
  swc_bulk_file_format : string
}.

End Config.

(* ===================================================================== *)
(** ** The retry decorator, as configured by the client *)
(* ===================================================================== *)

Module Backoff.

Inductive WaitGen := expo | fibo | constant.
Inductive Jitter := random_jitter | full_jitter.

(** The keyword arguments of [backoff.on_exception].  [max_tries] and
    [max_time] are [None] when the argument is not passed. *)
Record OnException := {
  wait_gen : WaitGen;
  exception : list ExnClass;
  max_tries : option nat;
  max_time : option Z;
  jitter : option Jitter
}.

End Backoff.

(* ===================================================================== *)
(** ** The world: requests issued and log records emitted *)
(* ===================================================================== *)

Inductive LogMessage :=
| BulkFileBaseUrl (url : string)
| InputConfig (cfg : Config.SWCConfig)
| BulkFileDictionary (d : gmap string string)
| CallInfo (base_url api_endpoint : string) (api_params : option (gmap string PyVal))
| ResponseJSON (j : JSON)
| HTTPStatusErrorOccurred (status_code : Z) (text : string)
| RequestErrorOccurred (message : string).

Inductive LogRecord :=
| DEBUG (m : LogMessage)
| ERROR (m : LogMessage).

Record World := {
  requests : list Httpx.Request;   (* GETs issued so far, oldest first *)
  log : list LogRecord             (* records emitted so far, oldest first *)
}.

Definition no_history : World := {| requests := []; log := [] |}.

(** A computation that reads and extends the world and ends like a call. *)
Definition M (A : Type) : Type := World -> PyResult A * World.

Definition raise {A} (e : Exn) : M A := fun w => (Raised e, w).

#[global] Instance M_ret : MRet M := fun A (a : A) w => (Returned a, w).

#[global] Instance M_bind : MBind M := fun A B (k : A -> M B) (m : M A) w =>
  match m w with
  | (Returned a, w') => k a w'
  | (Raised e, w') => (Raised e, w')
  end.

(** [try: body except ...: handler]; the handler receives the exception
    and decides what to do with it. *)
Definition try_except {A} (body : M A) (handler : Exn -> M A) : M A :=
  fun w =>
    match body w with
    | (Returned a, w') => (Returned a, w')
    | (Raised e, w') => handler e w'
    end.

Definition logger_debug (m : LogMessage) : M unit :=
  fun w => (Returned tt, {| requests := requests w; log := log w ++ [DEBUG m] |}).

Definition logger_error (m : LogMessage) : M unit :=
  fun w => (Returned tt, {| requests := requests w; log := log w ++ [ERROR m] |}).

(* ===================================================================== *)
(** ** class SWCClient *)
(* ===================================================================== *)

(** *** Class constants *)

Definition HEALTH_CHECK_ENDPOINT : string := "/".
Definition LIST_LEAGUES_ENDPOINT : string := "/v0/leagues/".
Definition LIST_PLAYERS_ENDPOINT : string := "/v0/players/".
Definition LIST_PERFORMANCES_ENDPOINT : string := "/v0/performances/".
Definition LIST_TEAMS_ENDPOINT : string := "/v0/teams/".
Definition GET_COUNTS_ENDPOINT : string := "/v0/counts/".

Definition BULK_FILE_BASE_URL : string :=
  "https://raw.githubusercontent.com/46075417" +:+ "/portfolio-project/main/bulk/".

(** *** Instance attributes

    [get_url] is assigned on one branch of the constructor only; it is
    [None] on an instance that never had it assigned. *)
Record SWCClient := {
  swc_base_url : string;
  backoff : bool;
  backoff_max_time : Z;
  bulk_file_format : string;
  BULK_FILE_NAMES : gmap string string;
  get_url : option Backoff.OnException
}.

(** [self.get_url = f] *)
Definition set_get_url (self : SWCClient) (f : Backoff.OnException) : SWCClient :=
  {| swc_base_url := swc_base_url self;
     backoff := backoff self;
     backoff_max_time := backoff_max_time self;
     bulk_file_format := bulk_file_format self;
     BULK_FILE_NAMES := BULK_FILE_NAMES self;
     get_url := Some f |}.

(** [self.BULK_FILE_NAMES = d] *)
Definition set_BULK_FILE_NAMES (self : SWCClient) (d : gmap string string) : SWCClient :=
  {| swc_base_url := swc_base_url self;
     backoff := backoff self;
     backoff_max_time := backoff_max_time self;
     bulk_file_format := bulk_file_format self;
     BULK_FILE_NAMES := d;
     get_url := get_url self |}.

(** The dictionary literal of the constructor: entity to file name
    without extension. *)
Definition bulk_file_basenames : gmap string string :=
  <["team_players" := "team_player_data"]>
  (<["teams" := "team_data"]>
  (<["performances" := "performance_data"]>
  (<["leagues" := "league_data"]>
  (<["players" := "player_data"]> ∅)))).

(** *** [__init__] *)
Definition init (input_config : Config.SWCConfig) : M SWCClient :=
  logger_debug (BulkFileBaseUrl BULK_FILE_BASE_URL) ;;
  logger_debug (InputConfig input_config) ;;
  let self :=
    {| swc_base_url := Config.swc_base_url input_config;
       backoff := Config.swc_backoff input_config;
       backoff_max_time := Config.swc_backoff_max_time input_config;
       bulk_file_format := Config.swc_bulk_file_format input_config;
       BULK_FILE_NAMES := bulk_file_basenames;
       get_url := None |} in
  let self :=
    if backoff self then
      set_get_url self
        {| Backoff.wait_gen := Backoff.expo;
           Backoff.exception := [RequestError_cls; HTTPStatusError_cls];
           Backoff.max_tries := None;
           Backoff.max_time := Some (backoff_max_time self);
           Backoff.jitter := Some Backoff.random_jitter |}
    else self in
  let self :=
    if String.eqb (PyStr.lower (bulk_file_format self)) "parquet" then
      set_BULK_FILE_NAMES self
        (dict_comp (fun _ _ => true) (fun _ value => value +:+ ".parquet")
                   (BULK_FILE_NAMES self))
    else
      set_BULK_FILE_NAMES self
        (dict_comp (fun _ _ => true) (fun _ value => value +:+ ".csv")
                   (BULK_FILE_NAMES self)) in
  logger_debug (BulkFileDictionary (BULK_FILE_NAMES self)) ;;
  mret self.

(** *** [call_api] and the retry-wrapped alias *)

Section Transport.

(** What [httpx] does with a base URL: [invalid_url b] is [None] when
    [httpx.Client(base_url=b)] builds a client, and the message of the
    [InvalidURL] it raises when it cannot parse [b]. *)
Variable invalid_url : string -> option string.

(** What the server side answers: [send n req] is the way the GET of
    [req] ends when [n] requests went out before it. *)
Variable send : nat -> Httpx.Request -> PyResult Httpx.Response.

(** [httpx.Client(base_url=b)], entering the [with] block. *)
Definition httpx_Client (base_url : string) : M unit :=
  match invalid_url base_url with
  | None => mret tt
  | Some message => raise (InvalidURL message)
  end.

(** [client.get(u, params=p)] on the client built for the base URL. *)
Definition client_get (req : Httpx.Request) : M Httpx.Response :=
  fun w => (send (length (requests w)) req,
            {| requests := requests w ++ [req]; log := log w |}).

(** [response.json()] *)
Definition response_json (response : Httpx.Response) : M JSON :=
  match Httpx.decoded response with
  | inl j => mret j
  | inr err => raise (decode_exn err)
  end.

(** Truth value of [api_params] in [if api_params:]: [None] and the
    empty dictionary are false. *)
Definition truthy (api_params : option (gmap string PyVal)) : bool :=
  match api_params with
  | None => false
  | Some d => negb (Nat.eqb (size d) 0)
  end.

(** The first statement of [call_api]. *)
Definition strip_params (api_params : option (gmap string PyVal))
    : option (gmap string PyVal) :=
  if truthy api_params then
    dict_comp (fun _ val => is_not_None val) (fun _ val => val) <$> api_params
  else api_params.

Definition call_api (self : SWCClient) (api_endpoint : string)
    (api_params : option (gmap string PyVal)) : M Httpx.Response :=
  let api_params := strip_params api_params in
  try_except
    (httpx_Client (swc_base_url self) ;;
     logger_debug (CallInfo (swc_base_url self) api_endpoint api_params) ;;
     response ← client_get {| Httpx.base_url := swc_base_url self;
                              Httpx.url := api_endpoint;
                              Httpx.params := api_params |} ;
     j ← response_json response ;
     logger_debug (ResponseJSON j) ;;
     mret response)
    (fun e =>
       match e with
       | HTTPStatusError _ response =>
           logger_error (HTTPStatusErrorOccurred (Httpx.status_code response)
                                                 (Httpx.text response)) ;;
           raise e
       | RequestError message =>
           logger_error (RequestErrorOccurred message) ;;
           raise e
       | _ => raise e
       end).

(** What [backoff.on_exception(...)(target)] does when it is called:
    the decorator belongs to the [backoff] library. *)
Variable retry : Backoff.OnException -> M Httpx.Response -> M Httpx.Response.

(** Reading the attribute [self.get_url]. *)
Definition getattr_get_url (self : SWCClient) : M Backoff.OnException :=
  match get_url self with
  | Some f => mret f
  | None => raise (AttributeError "get_url")
  end.

(** [self.get_url(api_endpoint, api_params)] *)
Definition call_get_url (self : SWCClient) (api_endpoint : string)
    (api_params : option (gmap string PyVal)) : M Httpx.Response :=
  f ← getattr_get_url self ;
  retry f (call_api self api_endpoint api_params).

End Transport.

(* ===================================================================== *)
(** ** The retry loop *)
(* ===================================================================== *)

(** Time is counted in ticks on a logical clock.  A clock says how many
    ticks make a second, how long the first wait is, how long each
    attempt takes and how much jitter is added to each wait. *)
Record Clock := {
  ticks_per_second : Z;
  base_interval : Z;
  attempt_time : nat -> Z;
  jitter_at : nat -> Z
}.

(** Modelled from the spec: the wait generator and the jitter of the
    [backoff] library, which is not among the source files.  Section 4.3:
    the wait after attempt [k] (counted from 0) is the base interval
    doubled [k] times, plus the jitter drawn for it. *)
Definition wait (clk : Clock) (k : nat) : Z :=
  base_interval clk * 2 ^ Z.of_nat k + jitter_at clk k.

(** Modelled from the spec: the time limit of the [backoff] library.
    Section 4.3: the limit is passed when the elapsed time exceeds
    [max_time] seconds.  Without [max_time] there is no limit. *)
Definition exceeded (clk : Clock) (f : Backoff.OnException) (elapsed : Z) : bool :=
  match Backoff.max_time f with
  | Some seconds => ticks_per_second clk * seconds <? elapsed
  | None => false
  end.

(** Modelled from the spec: the attempt count of the [backoff] library.
    Section 4.3 knows no attempt count of its own; a decorator that is
    given [max_tries], which the client never passes, stops with the
    attempt that uses them up. *)
Definition tries_used_up (f : Backoff.OnException) (k : nat) : bool :=
  match Backoff.max_tries f with
  | Some n => Nat.leb n (S k)
  | None => false
  end.

(** The exception is of a class the decorator retries on. *)
Definition retryable (f : Backoff.OnException) (e : Exn) : bool :=
  existsb (isinstance e) (Backoff.exception f).

(** Modelled from the spec: the loop of [backoff.on_exception], which
    belongs to the [backoff] library and is not among the source files.
    Section 4.3 of the specification: the target is called; when it
    returns, its value is handed back; an exception of another class than
    the configured ones leaves at once; after an exception of a configured
    class the loop gives up and raises that last exception when the time
    elapsed since the first attempt exceeds the limit, and otherwise waits
    (base interval doubled at each attempt, plus jitter) and calls the
    target again.  [k] counts the attempts made before this one and
    [elapsed] is the time at which this one starts.  The result is [None]
    when [fuel] further attempts were not enough to reach an end. *)
Fixpoint retry_loop (clk : Clock) (f : Backoff.OnException)
    (target : M Httpx.Response) (fuel : nat) (k : nat) (elapsed : Z) (w : World)
    : option (PyResult Httpx.Response * World) :=
  match target w with
  | (Returned r, w') => Some (Returned r, w')
  | (Raised e, w') =>
      if retryable f e then
        let elapsed := elapsed + attempt_time clk k in
        if exceeded clk f elapsed || tries_used_up f k then Some (Raised e, w')
        else
          match fuel with
          | O => None
          | S fuel' =>
              retry_loop clk f target fuel' (S k) (elapsed + wait clk k) w'
          end
      else Some (Raised e, w')
  end.

(** The decorated function, as a call: the loop from the first attempt
    at time 0.  A loop that was cut off for lack of fuel shows as an
    exception of its own. *)
Definition on_exception (clk : Clock) (fuel : nat) (f : Backoff.OnException)
    (target : M Httpx.Response) : M Httpx.Response :=
  fun w =>
    match retry_loop clk f target fuel 0 0 w with
    | Some end_of_call => end_of_call
    | None => (Raised (OtherError "OutOfFuel" "retry loop cut off"), w)
    end.

(* ===================================================================== *)
(** ** Vocabulary of the statements *)
(* ===================================================================== *)

(** Two strings are equal when case is ignored. *)
Definition caseless_eq (a b : string) : Prop := PyStr.lower a = PyStr.lower b.

(** The extension the constructor appends, as a function of the configured
    format. *)
Definition extension (format : string) : string :=
  if String.eqb (PyStr.lower format) "parquet" then ".parquet" else ".csv".

(** The decorator arguments the constructor passes for a given time limit. *)
Definition configured_retry (max_time : Z) : Backoff.OnException :=
  {| Backoff.wait_gen := Backoff.expo;
     Backoff.exception := [RequestError_cls; HTTPStatusError_cls];
     Backoff.max_tries := None;
     Backoff.max_time := Some max_time;
     Backoff.jitter := Some Backoff.random_jitter |}.

(** The request [call_api] hands to [httpx]. *)
Definition request_of (self : SWCClient) (api_endpoint : string)
    (api_params : option (gmap string PyVal)) : Httpx.Request :=
  {| Httpx.base_url := swc_base_url self;
     Httpx.url := api_endpoint;
     Httpx.params := strip_params api_params |}.

(** The debug record written before the request goes out. *)
Definition call_info (self : SWCClient) (api_endpoint : string)
    (api_params : option (gmap string PyVal)) : LogRecord :=
  DEBUG (CallInfo (swc_base_url self) api_endpoint (strip_params api_params)).

(** The error record of an [except] clause, if the exception has one. *)
Definition error_record (e : Exn) : list LogRecord :=
  match e with
  | HTTPStatusError _ response =>
      [ERROR (HTTPStatusErrorOccurred (Httpx.status_code response)
                                      (Httpx.text response))]
  | RequestError message => [ERROR (RequestErrorOccurred message)]
  | _ => []
  end.

(** The time at which attempt [k] starts, and the time at which it has
    failed, when every attempt before it failed and was retried. *)
Fixpoint started_at (clk : Clock) (k : nat) : Z :=
  match k with
  | O => 0
  | S j => started_at clk j + attempt_time clk j + wait clk j
  end.

Definition failed_at (clk : Clock) (k : nat) : Z :=
  started_at clk k + attempt_time clk k.

(** A clock that runs forward: seconds and the base interval last at
    least a tick, attempts take no negative time and jitter only adds to
    a wait. *)
Definition runs_forward (clk : Clock) : Prop :=
  0 < ticks_per_second clk /\
  0 < base_interval clk /\
  (forall k, 0 <= attempt_time clk k) /\
  (forall k, 0 <= jitter_at clk k).

(** The decorator behaves like its target on a call of the target that
    returns: the value is handed back and nothing else happens. *)
Definition returns_what_target_returns
    (retry : Backoff.OnException -> M Httpx.Response -> M Httpx.Response) : Prop :=
  forall f target w r w',
    target w = (Returned r, w') -> retry f target w = (Returned r, w').

(** A decorator that calls its target once and hands its outcome back.
    It stands in for the retry decorator where only calls that return, or
    attribute look-ups that fail, are concerned. *)
Definition retry_never (f : Backoff.OnException) (target : M Httpx.Response)
    : M Httpx.Response := target.

(* ===================================================================== *)
(** ** Concrete configurations and servers *)
(* ===================================================================== *)

Module Scenario.

(** Retry enabled with a limit of one second. *)
Definition backoff_1s : Config.SWCConfig :=
  {| Config.swc_base_url := "https://api.example.com";
     Config.swc_backoff := true;
     Config.swc_backoff_max_time := 1;
     Config.swc_bulk_file_format := "csv" |}.

(** Retry disabled. *)
Definition no_backoff : Config.SWCConfig :=
  {| Config.swc_base_url := "https://api.example.com";
     Config.swc_backoff := false;
     Config.swc_backoff_max_time := 30;
     Config.swc_bulk_file_format := "csv" |}.

(** HTTP 503 with an empty JSON object as body. *)
Definition unavailable : Httpx.Response :=
  {| Httpx.status_code := 503;
     Httpx.headers := [("content-type", "application/json")];
     Httpx.text := "{}";
     Httpx.decoded := inl (JObject []) |}.

(** HTTP 404 with an empty JSON list as body. *)
Definition not_found : Httpx.Response :=
  {| Httpx.status_code := 404;
     Httpx.headers := [("content-type", "application/json")];
     Httpx.text := "[]";
     Httpx.decoded := inl (JArray []) |}.

(** HTTP 502 with an HTML page as body, as a gateway in front of the API
    answers; the body is not JSON. *)
Definition bad_gateway : Httpx.Response :=
  {| Httpx.status_code := 502;
     Httpx.headers := [("content-type", "text/html")];
     Httpx.text := "<html><body>502 Bad Gateway</body></html>";
     Httpx.decoded :=
       inr (Httpx.NotJSON "Expecting value: line 1 column 1 (char 0)") |}.

(** The base URLs [httpx] rejects here: one with a port that is no
    number.  Every other base URL builds a client. *)
Definition url_check (base_url : string) : option string :=
  if String.eqb base_url "https://api.example.com:abc"
  then Some "Invalid port: 'abc'"
  else None.

(** A clock in milliseconds: waits start at one second, an attempt takes
    20 ms, and the jitter is 250 ms on even attempts and 700 ms on odd
    ones. *)
Definition clock : Clock :=
  {| ticks_per_second := 1000;
     base_interval := 1000;
     attempt_time := fun _ => 20;
     jitter_at := fun k => if Nat.even k then 250 else 700 |}.

(** A server that answers every attempt with the same response. *)
Definition always (r : Httpx.Response) : nat -> Httpx.Request -> PyResult Httpx.Response :=
  fun _ _ => Returned r.

(** A server that cannot be reached. *)
Definition unreachable : nat -> Httpx.Request -> PyResult Httpx.Response :=
  fun _ _ => Raised (RequestError "connection refused").

(** A client as the constructor leaves it for [no_backoff] with a base
    URL that [url_check] rejects. *)
Definition bad_port_client : SWCClient :=
  {| swc_base_url := "https://api.example.com:abc";
     backoff := false;
     backoff_max_time := 30;
     bulk_file_format := "csv";
     BULK_FILE_NAMES := (fun value => value +:+ ".csv") <$> bulk_file_basenames;
     get_url := None |}.

(** A client as the constructor leaves it for [no_backoff]. *)
Definition plain_client : SWCClient :=
  {| swc_base_url := "https://api.example.com";
     backoff := false;
     backoff_max_time := 30;
     bulk_file_format := "csv";
     BULK_FILE_NAMES := (fun value => value +:+ ".csv") <$> bulk_file_basenames;
     get_url := None |}.

End Scenario.

(* ===================================================================== *)
(** ** Properties of the building blocks *)
(* ===================================================================== *)

(** *** Strings *)

Lemma endswith_append (stem suffix : string) : PyStr.endswith (stem +:+ suffix) suffix.
Proof. by exists stem. Qed.

Lemma lower_parquet : PyStr.lower "parquet" = "parquet".
Proof. reflexivity. Qed.

(** *** Dictionary comprehensions *)

(** An entry of the result comes from the entry of the source under the
    same key, when that entry passes the condition. *)
Lemma lookup_dict_comp {A B} (cond : string -> A -> bool) (expr : string -> A -> B)
    (d : gmap string A) (k : string) :
  dict_comp cond expr d !! k =
  d !! k ≫= (fun v => if cond k v then Some (expr k v) else None).
Proof.
  unfold dict_comp.
  apply (map_fold_weak_ind (fun (acc : gmap string B) (m : gmap string A) =>
           acc !! k = m !! k ≫= (fun v => if cond k v then Some (expr k v) else None))).
  - by rewrite !lookup_empty.
  - intros i x m acc Hfresh IH.
    destruct (decide (i = k)) as [->|Hne].
    + rewrite lookup_insert_eq. simpl.
      destruct (cond k x).
      * by rewrite lookup_insert_eq.
      * by rewrite IH, Hfresh.
    + rewrite (lookup_insert_ne m) by done.
      destruct (cond i x); [by rewrite lookup_insert_ne|done].
Qed.

(** A comprehension without a condition maps over the values. *)
Lemma dict_comp_fmap {A B} (f : A -> B) (d : gmap string A) :
  dict_comp (fun _ _ => true) (fun _ v => f v) d = f <$> d.
Proof.
  apply map_eq. intros k. rewrite lookup_dict_comp, lookup_fmap.
  by destruct (d !! k).
Qed.

(** A comprehension that copies the entries passing a test is the
    restriction of the dictionary to those entries. *)
Lemma dict_comp_filter (d : gmap string PyVal) :
  dict_comp (fun _ val => is_not_None val) (fun _ val => val) d =
  filter (fun kv => kv.2 ≠ PyNone) d.
Proof.
  apply map_eq. intros k. rewrite lookup_dict_comp, map_lookup_filter.
  destruct (d !! k) as [v|]; simpl; [|done].
  destruct v; simpl; try done;
    by rewrite option_guard_True.
Qed.

(** *** The constructor *)

(** The constructor always returns; it writes three debug records, issues
    no request, and sets the attributes as follows. *)
Lemma init_returns (cfg : Config.SWCConfig) (w : World) :
  exists self : SWCClient,
    init cfg w =
      (Returned self,
       {| requests := requests w;
          log := log w ++ [DEBUG (BulkFileBaseUrl BULK_FILE_BASE_URL);
                           DEBUG (InputConfig cfg);
                           DEBUG (BulkFileDictionary (BULK_FILE_NAMES self))] |})
    /\ swc_base_url self = Config.swc_base_url cfg
    /\ backoff self = Config.swc_backoff cfg
    /\ backoff_max_time self = Config.swc_backoff_max_time cfg
    /\ bulk_file_format self = Config.swc_bulk_file_format cfg
    /\ BULK_FILE_NAMES self =
         (fun value => value +:+ extension (Config.swc_bulk_file_format cfg))
           <$> bulk_file_basenames
    /\ get_url self =
         if Config.swc_backoff cfg
         then Some (configured_retry (Config.swc_backoff_max_time cfg))
         else None.
Proof.
  destruct cfg as [url bo mt fmt].
  unfold init, extension, mbind, M_bind, logger_debug, mret, M_ret,
    set_get_url, set_BULK_FILE_NAMES.
  destruct bo;
    cbn [Config.swc_base_url Config.swc_backoff Config.swc_backoff_max_time
         Config.swc_bulk_file_format
         swc_base_url backoff backoff_max_time bulk_file_format
         BULK_FILE_NAMES get_url requests log];
    destruct (String.eqb (PyStr.lower fmt) "parquet");
    cbn [swc_base_url backoff backoff_max_time
         bulk_file_format BULK_FILE_NAMES get_url requests log];
    rewrite dict_comp_fmap, <- !app_assoc; cbn [app];
    lazymatch goal with
    | |- exists self, (Returned ?c, _) = _ /\ _ => exists c
    end;
    repeat split; reflexivity.
Qed.

(** *** One call *)

Section CallApi.

Variable invalid_url : string -> option string.
Variable send : nat -> Httpx.Request -> PyResult Httpx.Response.

Ltac run_call :=
  unfold call_api, try_except, mbind, M_bind, mret, M_ret, httpx_Client,
    client_get, response_json, logger_debug, logger_error, raise, request_of,
    call_info;
  simpl.

(** On a base URL that [httpx] rejects the call ends before anything is
    logged or sent. *)
Lemma call_api_rejected self ep ps w message :
  invalid_url (swc_base_url self) = Some message ->
  call_api invalid_url send self ep ps w = (Raised (InvalidURL message), w).
Proof.
  intros Hurl. run_call. by rewrite Hurl.
Qed.

(** On a base URL that [httpx] accepts, [call_api] issues exactly one
    request, however it ends. *)
Lemma call_api_requests self ep ps w :
  invalid_url (swc_base_url self) = None ->
  requests (call_api invalid_url send self ep ps w).2 =
    requests w ++ [request_of self ep ps].
Proof.
  intros Hurl. run_call. rewrite Hurl. simpl.
  destruct (send _ _) as [r|e]; simpl.
  - destruct (Httpx.decoded r) as [j|[message|message|class message]];
      reflexivity.
  - destruct e; reflexivity.
Qed.

(** A delivered response whose body decodes is returned as it is. *)
Lemma call_api_delivered self ep ps w r j :
  invalid_url (swc_base_url self) = None ->
  send (length (requests w)) (request_of self ep ps) = Returned r ->
  Httpx.json r = Some j ->
  call_api invalid_url send self ep ps w =
    (Returned r,
     {| requests := requests w ++ [request_of self ep ps];
        log := log w ++ [call_info self ep ps; DEBUG (ResponseJSON j)] |}).
Proof.
  intros Hurl Hsend Hjson. run_call. rewrite Hurl. simpl.
  unfold request_of in Hsend. rewrite Hsend. simpl.
  unfold Httpx.json in Hjson. destruct (Httpx.decoded r) as [j'|err]; [|done].
  injection Hjson as ->. simpl. by rewrite <- app_assoc.
Qed.

(** A delivered response whose body does not decode is not returned:
    the error of [response.json()] in the debug statement leaves the
    function. *)
Lemma call_api_undecodable self ep ps w r err :
  invalid_url (swc_base_url self) = None ->
  send (length (requests w)) (request_of self ep ps) = Returned r ->
  Httpx.decoded r = inr err ->
  call_api invalid_url send self ep ps w =
    (Raised (decode_exn err),
     {| requests := requests w ++ [request_of self ep ps];
        log := log w ++ [call_info self ep ps] |}).
Proof.
  intros Hurl Hsend Hdecoded. run_call. rewrite Hurl. simpl.
  unfold request_of in Hsend. rewrite Hsend. simpl. rewrite Hdecoded.
  by destruct err.
Qed.

(** An exception of the GET leaves the function as it is, after the
    error record of its [except] clause, if it has one. *)
Lemma call_api_raised self ep ps w e :
  invalid_url (swc_base_url self) = None ->
  send (length (requests w)) (request_of self ep ps) = Raised e ->
  call_api invalid_url send self ep ps w =
    (Raised e,
     {| requests := requests w ++ [request_of self ep ps];
        log := log w ++ call_info self ep ps :: error_record e |}).
Proof.
  intros Hurl Hsend. run_call. rewrite Hurl. simpl.
  unfold request_of in Hsend. rewrite Hsend. simpl.
  destruct e; simpl; rewrite <- ?app_assoc; reflexivity.
Qed.

(** A body decodes or it does not. *)
Lemma json_None_decoded (r : Httpx.Response) :
  Httpx.json r = None -> exists err, Httpx.decoded r = inr err.
Proof.
  unfold Httpx.json. destruct (Httpx.decoded r) as [j|err]; [done|by eauto].
Qed.

(** The error of [response.json()] is of neither [httpx] class. *)
Lemma decode_exn_class (err : Httpx.DecodeError) :
  isinstance (decode_exn err) RequestError_cls = false /\
  isinstance (decode_exn err) HTTPStatusError_cls = false.
Proof. by destruct err. Qed.

End CallApi.

(** *** The parameter filter *)

Section Strip.

Implicit Types (d : gmap string PyVal) (ps : option (gmap string PyVal)).

(** On a dictionary with at least one entry the filter runs. *)
Lemma strip_params_nonempty d :
  d ≠ ∅ -> strip_params (Some d) = Some (filter (fun kv => kv.2 ≠ PyNone) d).
Proof.
  intros Hne. unfold strip_params, truthy.
  destruct (Nat.eqb_spec (size d) 0) as [Hsize|_]; simpl.
  - by apply map_size_empty_iff in Hsize.
  - by rewrite dict_comp_filter.
Qed.

(** On the empty dictionary and on [None] nothing is done. *)
Lemma strip_params_empty : strip_params (Some ∅) = Some ∅.
Proof. reflexivity. Qed.

Lemma strip_params_None : strip_params None = None.
Proof. reflexivity. Qed.

(** After the filter no entry holds [None]. *)
Lemma strip_params_no_None ps d key :
  strip_params ps = Some d -> d !! key ≠ Some PyNone.
Proof.
  destruct ps as [d0|]; [|done].
  destruct (decide (d0 = ∅)) as [->|Hne].
  - rewrite strip_params_empty. intros [= <-]. by rewrite lookup_empty.
  - rewrite strip_params_nonempty by done. intros [= <-].
    intros [_ Hval]%map_lookup_filter_Some. by apply Hval.
Qed.

End Strip.


(* ===================================================================== *)
(** ** The bulk file name table *)
(* ===================================================================== *)

(** [extension] follows the comparison up to case with the word parquet. *)
Lemma extension_parquet (format : string) :
  caseless_eq format "parquet" -> extension format = ".parquet".
Proof.
  unfold caseless_eq, extension. rewrite lower_parquet. intros ->. reflexivity.
Qed.

Lemma extension_other (format : string) :
  ~ caseless_eq format "parquet" -> extension format = ".csv".
Proof.
  unfold caseless_eq, extension. rewrite lower_parquet. intros Hne.
  destruct (String.eqb_spec (PyStr.lower format) "parquet"); [done|reflexivity].
Qed.

(** Every file name of the table built for [format] carries the
    extension of [format]. *)
Lemma table_values_end_in_extension (format key value : string) :
  ((fun v => v +:+ extension format) <$> bulk_file_basenames) !! key = Some value ->
  PyStr.endswith value (extension format).
Proof.
  rewrite lookup_fmap. intros (stem & _ & ->)%fmap_Some.
  apply endswith_append.
Qed.

(** C4. Whatever the configured bulk file format: if it equals the word
    parquet when case is ignored, every value of the bulk file name table
    of the constructed client ends in .parquet; for every other format
    string every value ends in .csv. *)
Theorem bulk_file_names_extension (cfg : Config.SWCConfig) (w : World) :
  exists (self : SWCClient) (w' : World),
    init cfg w = (Returned self, w') /\
    (caseless_eq (Config.swc_bulk_file_format cfg) "parquet" ->
     forall key value,
       BULK_FILE_NAMES self !! key = Some value -> PyStr.endswith value ".parquet") /\
    (~ caseless_eq (Config.swc_bulk_file_format cfg) "parquet" ->
     forall key value,
       BULK_FILE_NAMES self !! key = Some value -> PyStr.endswith value ".csv").
Proof.
  destruct (init_returns cfg w) as (self & Hrun & _ & _ & _ & _ & Hnames & _).
  exists self. eexists. split; [exact Hrun|]. rewrite Hnames.
  split; intros Hfmt key value Hlookup;
    apply table_values_end_in_extension in Hlookup.
  - by rewrite extension_parquet in Hlookup.
  - by rewrite extension_other in Hlookup.
Qed.

(** C5. Whatever the configuration, the table of the constructed client
    has exactly the keys players, leagues, performances, teams and
    team_players, each mapped to its fixed base name followed by the
    extension of the configured format; with the format Parquet the key
    players maps to player_data.parquet. *)
Theorem bulk_file_names_table (cfg : Config.SWCConfig) (w : World) :
  exists (self : SWCClient) (w' : World),
    init cfg w = (Returned self, w') /\
    dom (BULK_FILE_NAMES self) =
      ({[ "players"; "leagues"; "performances"; "teams"; "team_players" ]} : gset string) /\
    (let ext := extension (Config.swc_bulk_file_format cfg) in
     BULK_FILE_NAMES self !! "players" = Some ("player_data" +:+ ext) /\
     BULK_FILE_NAMES self !! "leagues" = Some ("league_data" +:+ ext) /\
     BULK_FILE_NAMES self !! "performances" = Some ("performance_data" +:+ ext) /\
     BULK_FILE_NAMES self !! "teams" = Some ("team_data" +:+ ext) /\
     BULK_FILE_NAMES self !! "team_players" = Some ("team_player_data" +:+ ext)) /\
    (Config.swc_bulk_file_format cfg = "Parquet" ->
     BULK_FILE_NAMES self !! "players" = Some "player_data.parquet").
Proof.
  destruct (init_returns cfg w) as (self & Hrun & _ & _ & _ & _ & Hnames & _).
  exists self. eexists. split; [exact Hrun|]. rewrite Hnames.
  split; [|split].
  - rewrite dom_fmap_L. unfold bulk_file_basenames.
    rewrite !dom_insert_L, dom_empty_L. set_solver.
  - cbv zeta. rewrite !lookup_fmap. unfold bulk_file_basenames.
    repeat split; by simplify_map_eq.
  - intros ->. rewrite lookup_fmap. unfold bulk_file_basenames.
    by simplify_map_eq.
Qed.

(** Witness of C4 on the format PARQUET. *)
Lemma bulk_file_names_extension_witness :
  exists (self : SWCClient) (w' : World),
    init {| Config.swc_base_url := "https://api.example.com";
            Config.swc_backoff := true;
            Config.swc_backoff_max_time := 30;
            Config.swc_bulk_file_format := "PARQUET" |} no_history
      = (Returned self, w') /\
    forall key value,
      BULK_FILE_NAMES self !! key = Some value -> PyStr.endswith value ".parquet".
Proof.
  destruct (bulk_file_names_extension
              {| Config.swc_base_url := "https://api.example.com";
                 Config.swc_backoff := true;
                 Config.swc_backoff_max_time := 30;
                 Config.swc_bulk_file_format := "PARQUET" |} no_history)
    as (self & w' & Hrun & Hparquet & _).
  exists self, w'. split; [exact Hrun|]. apply Hparquet. reflexivity.
Defined.

(** Witness of C5 on the format Parquet. *)
Lemma bulk_file_names_table_witness :
  exists (self : SWCClient) (w' : World),
    init {| Config.swc_base_url := "https://api.example.com";
            Config.swc_backoff := false;
            Config.swc_backoff_max_time := 30;
            Config.swc_bulk_file_format := "Parquet" |} no_history
      = (Returned self, w') /\
    BULK_FILE_NAMES self !! "players" = Some "player_data.parquet".
Proof.
  destruct (bulk_file_names_table
              {| Config.swc_base_url := "https://api.example.com";
                 Config.swc_backoff := false;
                 Config.swc_backoff_max_time := 30;
                 Config.swc_bulk_file_format := "Parquet" |} no_history)
    as (self & w' & Hrun & _ & _ & Hplayers).
  exists self, w'. split; [exact Hrun|]. apply Hplayers. reflexivity.
Defined.

(* ===================================================================== *)
(** ** The outgoing request *)
(* ===================================================================== *)

(** C3. Whatever parameter mapping is passed to [call_api], no key of
    the query parameters that go out holds [None]: on a base URL that
    [httpx] accepts the call issues one GET with the base URL of the
    client and the given path, whose parameters hold no [None], and on a
    base URL that [httpx] rejects no request goes out at all.  A client
    configured with the base URL https://api.example.com, without backoff
    and with the csv format, called on /v0/leagues/ with the mapping
    league_id to [None], issues a GET for that base URL and path with no
    query parameter. *)
Theorem query_has_no_None
    (invalid_url : string -> option string)
    (send : nat -> Httpx.Request -> PyResult Httpx.Response) :
  (forall (self : SWCClient) (api_endpoint : string)
          (api_params : option (gmap string PyVal)) (w : World),
     (invalid_url (swc_base_url self) = None ->
      exists req : Httpx.Request,
        requests (call_api invalid_url send self api_endpoint api_params w).2 =
          requests w ++ [req] /\
        Httpx.base_url req = swc_base_url self /\
        Httpx.url req = api_endpoint /\
        forall d key, Httpx.params req = Some d -> d !! key ≠ Some PyNone) /\
     (forall message,
        invalid_url (swc_base_url self) = Some message ->
        requests (call_api invalid_url send self api_endpoint api_params w).2 =
          requests w)) /\
  (invalid_url "https://api.example.com" = None ->
   forall (max_time : Z) (w : World),
     exists (self : SWCClient) (w' : World),
       init {| Config.swc_base_url := "https://api.example.com";
               Config.swc_backoff := false;
               Config.swc_backoff_max_time := max_time;
               Config.swc_bulk_file_format := "csv" |} w = (Returned self, w') /\
       requests (call_api invalid_url send self "/v0/leagues/"
                          (Some {[ "league_id" := PyNone ]}) w').2 =
         requests w ++ [ {| Httpx.base_url := "https://api.example.com";
                            Httpx.url := "/v0/leagues/";
                            Httpx.params := Some ∅ |} ]).
Proof.
  split.
  - intros self ep ps w. split.
    + intros Hurl. exists (request_of self ep ps).
      split; [by apply call_api_requests|]. repeat split.
      intros d key Hparams. by apply (strip_params_no_None ps).
    + intros message Hurl.
      by rewrite (call_api_rejected invalid_url send self ep ps w message).
  - intros Hurl max_time w.
    destruct (init_returns
                {| Config.swc_base_url := "https://api.example.com";
                   Config.swc_backoff := false;
                   Config.swc_backoff_max_time := max_time;
                   Config.swc_bulk_file_format := "csv" |} w)
      as (self & Hrun & Hbase & _).
    cbn [Config.swc_base_url] in Hbase.
    exists self. eexists. split; [exact Hrun|].
    rewrite call_api_requests by (by rewrite Hbase).
    cbn [requests]. f_equal. f_equal.
    unfold request_of. rewrite Hbase.
    (* the filter runs on the one-entry mapping and leaves nothing *)
    vm_compute. reflexivity.
Qed.

(** Witness of C3: the query of a call with one absent and one present
    parameter holds no [None]. *)
Lemma query_has_no_None_witness :
  exists req : Httpx.Request,
    requests (call_api Scenario.url_check Scenario.unreachable
                Scenario.plain_client "/v0/players/"
                (Some {[ "first_name" := PyNone; "skip" := PyInt 0 ]})
                no_history).2 = [req] /\
    forall d key, Httpx.params req = Some d -> d !! key ≠ Some PyNone.
Proof.
  destruct (proj1 (proj1 (query_has_no_None Scenario.url_check Scenario.unreachable)
                     Scenario.plain_client "/v0/players/"
                     (Some {[ "first_name" := PyNone; "skip" := PyInt 0 ]})
                     no_history) eq_refl)
    as (req & Hreq & _ & _ & Hnone).
  exists req. split; [exact Hreq|exact Hnone].
Defined.

(** C9. For every parameter mapping with at least one entry, the mapping
    that goes out with the request is the restriction of the given mapping
    to the keys whose value is not [None]: every such entry is kept with
    its value, and nothing else is in it. *)
Theorem query_is_restriction
    (invalid_url : string -> option string)
    (send : nat -> Httpx.Request -> PyResult Httpx.Response)
    (self : SWCClient) (api_endpoint : string) (d : gmap string PyVal) (w : World) :
  invalid_url (swc_base_url self) = None ->
  d ≠ ∅ ->
  exists out : gmap string PyVal,
    requests (call_api invalid_url send self api_endpoint (Some d) w).2 =
      requests w ++ [ {| Httpx.base_url := swc_base_url self;
                         Httpx.url := api_endpoint;
                         Httpx.params := Some out |} ] /\
    out = filter (fun kv => kv.2 ≠ PyNone) d /\
    (forall key val, d !! key = Some val -> val ≠ PyNone -> out !! key = Some val) /\
    (forall key val, out !! key = Some val -> d !! key = Some val /\ val ≠ PyNone).
Proof.
  intros Hurl Hne. exists (filter (fun kv => kv.2 ≠ PyNone) d).
  split; [|split; [reflexivity|split]].
  - rewrite call_api_requests by done. unfold request_of.
    by rewrite strip_params_nonempty.
  - intros key val Hlookup Hval. by apply map_lookup_filter_Some.
  - intros key val Hlookup. by apply map_lookup_filter_Some in Hlookup.
Qed.

(** Witness of C9 on a mapping with one absent and one present value. *)
Lemma query_is_restriction_witness :
  exists out : gmap string PyVal,
    requests (call_api Scenario.url_check Scenario.unreachable
                Scenario.plain_client "/v0/players/"
                (Some {[ "first_name" := PyNone; "skip" := PyInt 0 ]})
                no_history).2 =
      [ {| Httpx.base_url := "https://api.example.com";
           Httpx.url := "/v0/players/";
           Httpx.params := Some out |} ] /\
    out !! "skip" = Some (PyInt 0) /\ out !! "first_name" = None.
Proof.
  destruct (query_is_restriction Scenario.url_check Scenario.unreachable
              Scenario.plain_client "/v0/players/"
              {[ "first_name" := PyNone; "skip" := PyInt 0 ]}
              no_history eq_refl (insert_non_empty _ _ _))
    as (out & Hreq & -> & _ & _).
  eexists. split; [exact Hreq|]. split; vm_compute; reflexivity.
Defined.

(* ===================================================================== *)
(** ** The retry loop *)
(* ===================================================================== *)

Section RetryLoop.

Variable clk : Clock.
Variable f : Backoff.OnException.
Variable target : M Httpx.Response.

(** A call of the target that returns ends the loop at once, with what
    the target returned. *)
Lemma retry_loop_returns fuel k elapsed w r w' :
  target w = (Returned r, w') ->
  retry_loop clk f target fuel k elapsed w = Some (Returned r, w').
Proof. intros Htarget. destruct fuel; simpl; by rewrite Htarget. Qed.

(** An exception of a class that is not retried ends the loop at once. *)
Lemma retry_loop_other_class fuel k elapsed w e w' :
  target w = (Raised e, w') ->
  retryable f e = false ->
  retry_loop clk f target fuel k elapsed w = Some (Raised e, w').
Proof.
  intros Htarget Hclass. destruct fuel; simpl; by rewrite Htarget, Hclass.
Qed.

(** On a clock that runs forward every wait lasts at least a tick, so
    that each attempt starts and fails later than the one before. *)
Lemma wait_positive k : runs_forward clk -> 1 <= wait clk k.
Proof.
  intros (_ & Hbase & _ & Hjitter). unfold wait.
  specialize (Hjitter k).
  assert (1 <= 2 ^ Z.of_nat k) by (apply Z.pow_le_mono_r with (b := 0); lia).
  nia.
Qed.

Lemma failed_at_increasing k :
  runs_forward clk -> failed_at clk k < failed_at clk (S k).
Proof.
  intros Hclk. pose proof (wait_positive k Hclk) as Hwait.
  destruct Hclk as (_ & _ & Htime & _). specialize (Htime (S k)).
  unfold failed_at. simpl. lia.
Qed.

Lemma failed_at_monotone j k :
  runs_forward clk -> (j <= k)%nat -> failed_at clk j <= failed_at clk k.
Proof.
  intros Hclk Hle. induction Hle as [|k Hle IH]; [lia|].
  pose proof (failed_at_increasing k Hclk). lia.
Qed.

(** A target that keeps failing with exceptions of a retried class is
    called again and again until an attempt fails after the time limit;
    the loop then raises the exception of that last attempt.  [err] and
    [step] say what a failing call raises and what it leaves behind.
    The loop needs no more fuel than the limit has ticks. *)
Lemma retry_loop_gives_up (err : World -> Exn) (step : World -> World)
    (seconds : Z) :
  runs_forward clk ->
  Backoff.max_time f = Some seconds ->
  Backoff.max_tries f = None ->
  (forall w, target w = (Raised (err w), step w) /\ retryable f (err w) = true) ->
  forall fuel k w,
    ticks_per_second clk * seconds < started_at clk k + Z.of_nat fuel ->
    exists m : nat,
      retry_loop clk f target fuel k (started_at clk k) w =
        Some (Raised (err (Nat.iter m step w)), Nat.iter (S m) step w) /\
      ticks_per_second clk * seconds < failed_at clk (k + m) /\
      forall j, (j < m)%nat -> failed_at clk (k + j) <= ticks_per_second clk * seconds.
Proof.
  intros Hclk Hmax Htries Hfails.
  induction fuel as [|fuel IH]; intros k w Hfuel.
  - exists 0%nat. destruct (Hfails w) as [Htarget Hclass].
    pose proof Hclk as (_ & _ & Htime & _). specialize (Htime k).
    simpl. rewrite Htarget, Hclass. unfold exceeded, tries_used_up.
    rewrite Hmax, Htries.
    destruct (Z.ltb_spec (ticks_per_second clk * seconds)
                (started_at clk k + attempt_time clk k)) as [Hlate|Hearly]; [|lia].
    simpl. split; [reflexivity|]. split; [|lia].
    rewrite Nat.add_0_r. exact Hlate.
  - destruct (Hfails w) as [Htarget Hclass].
    pose proof Hclk as (_ & _ & Htime & _). specialize (Htime k).
    simpl. rewrite Htarget, Hclass. unfold exceeded, tries_used_up.
    rewrite Hmax, Htries.
    destruct (Z.ltb_spec (ticks_per_second clk * seconds)
                (started_at clk k + attempt_time clk k)) as [Hlate|Hearly]; simpl.
    + exists 0%nat. split; [reflexivity|]. split; [|lia].
      rewrite Nat.add_0_r. exact Hlate.
    + pose proof (wait_positive k Hclk) as Hwait.
      destruct (IH (S k) (step w)) as (m & Hloop & Hlate & Hearlier).
      { simpl. lia. }
      exists (S m). split; [|split].
      * simpl in Hloop. rewrite Hloop. by rewrite !Nat.iter_succ_r.
      * by rewrite Nat.add_succ_r.
      * intros [|j] Hj.
        -- rewrite Nat.add_0_r. exact Hearly.
        -- rewrite Nat.add_succ_r. apply Hearlier. lia.
Qed.

End RetryLoop.

(** The loop hands back what its target returns, with any fuel. *)
Lemma on_exception_returns (clk : Clock) (fuel : nat) :
  returns_what_target_returns (on_exception clk fuel).
Proof.
  intros f target w r w' Htarget. unfold on_exception.
  by rewrite (retry_loop_returns clk f target fuel 0 0 w r w').
Qed.

(* ===================================================================== *)
(** ** What the caller gets back *)
(* ===================================================================== *)

(** C2, on the code. The gateway's 502 page is delivered by the GET, on a
    base URL that [httpx] accepts, and yet it is not returned: the debug
    statement decodes the body before the [return], the decoding error
    leaves the call in place of the response, and the only record written
    is the debug record of the request. *)
Theorem undecodable_response_is_not_returned :
  Scenario.url_check (swc_base_url Scenario.plain_client) = None /\
  Scenario.always Scenario.bad_gateway 0
    (request_of Scenario.plain_client HEALTH_CHECK_ENDPOINT None)
    = Returned Scenario.bad_gateway /\
  call_api Scenario.url_check (Scenario.always Scenario.bad_gateway)
           Scenario.plain_client HEALTH_CHECK_ENDPOINT None no_history
    = (Raised (JSONDecodeError "Expecting value: line 1 column 1 (char 0)"),
       {| requests := [request_of Scenario.plain_client HEALTH_CHECK_ENDPOINT None];
          log := [call_info Scenario.plain_client HEALTH_CHECK_ENDPOINT None] |}) /\
  (call_api Scenario.url_check (Scenario.always Scenario.bad_gateway)
            Scenario.plain_client HEALTH_CHECK_ENDPOINT None no_history).1
    <> Returned Scenario.bad_gateway.
Proof.
  split; [reflexivity|]. split; [reflexivity|]. split; [reflexivity|]. discriminate.
Qed.

(** A delivered response never leaves [call_api] as a status error,
    whatever its status: it is returned, or the decoding error of the
    debug statement is raised. *)
Lemma delivered_is_never_a_status_error
    (invalid_url : string -> option string)
    (send : nat -> Httpx.Request -> PyResult Httpx.Response)
    (self : SWCClient) (api_endpoint : string)
    (api_params : option (gmap string PyVal)) (w : World) (r : Httpx.Response) :
  invalid_url (swc_base_url self) = None ->
  send (length (requests w)) (request_of self api_endpoint api_params) = Returned r ->
  forall message response,
    (call_api invalid_url send self api_endpoint api_params w).1
      <> Raised (HTTPStatusError message response).
Proof.
  intros Hurl Hsend message response.
  destruct (Httpx.decoded r) as [j|err] eqn:Hdecoded.
  - rewrite (call_api_delivered invalid_url send self api_endpoint api_params w r j);
      [done..|]. unfold Httpx.json. by rewrite Hdecoded.
  - rewrite (call_api_undecodable invalid_url send self api_endpoint api_params w r err)
      by done.
    by destruct err.
Qed.

(** Every [RequestError] and [HTTPStatusError] that the GET raises is
    written to the log as an error record and then leaves the function as
    the same exception, after the one request. *)
Lemma raised_errors_are_logged_and_reraised
    (invalid_url : string -> option string)
    (send : nat -> Httpx.Request -> PyResult Httpx.Response)
    (self : SWCClient) (api_endpoint : string)
    (api_params : option (gmap string PyVal)) (w : World) (e : Exn) :
  invalid_url (swc_base_url self) = None ->
  send (length (requests w)) (request_of self api_endpoint api_params) = Raised e ->
  isinstance e RequestError_cls || isinstance e HTTPStatusError_cls = true ->
  (exists m, error_record e = [ERROR m]) /\
  call_api invalid_url send self api_endpoint api_params w =
    (Raised e,
     {| requests := requests w ++ [request_of self api_endpoint api_params];
        log := log w ++ call_info self api_endpoint api_params :: error_record e |}).
Proof.
  intros Hurl Hsend Hclass. split.
  - destruct e; try discriminate Hclass; simpl; eauto.
  - by apply call_api_raised.
Qed.

(** C8, on the code. A completed exchange whose status reports a failure
    is a status error, and [call_api] neither logs it nor raises it: for
    every delivered 4xx or 5xx response no error record is written and no
    status error leaves the call; when the body decodes, the response is
    handed back as the result. *)
Theorem status_failure_is_neither_logged_nor_raised
    (invalid_url : string -> option string)
    (send : nat -> Httpx.Request -> PyResult Httpx.Response)
    (self : SWCClient) (api_endpoint : string)
    (api_params : option (gmap string PyVal)) (w : World) (r : Httpx.Response) :
  invalid_url (swc_base_url self) = None ->
  send (length (requests w)) (request_of self api_endpoint api_params) = Returned r ->
  Httpx.is_error r = true ->
  (forall message response,
     (call_api invalid_url send self api_endpoint api_params w).1
       <> Raised (HTTPStatusError message response)) /\
  (exists new : list LogRecord,
     log (call_api invalid_url send self api_endpoint api_params w).2 = log w ++ new /\
     forall m, ERROR m ∉ new) /\
  (is_Some (Httpx.json r) ->
   (call_api invalid_url send self api_endpoint api_params w).1 = Returned r).
Proof.
  intros Hurl Hsend _.
  destruct (Httpx.decoded r) as [j|err] eqn:Hdecoded.
  - rewrite (call_api_delivered invalid_url send self api_endpoint api_params w r j);
      [|done..|unfold Httpx.json; by rewrite Hdecoded].
    split; [done|]. split; [|done].
    eexists. split; [reflexivity|]. intros m Hm. unfold call_info in Hm.
    rewrite !elem_of_cons, elem_of_nil in Hm.
    by destruct Hm as [Hm|[Hm|[]]].
  - rewrite (call_api_undecodable invalid_url send self api_endpoint api_params w r err)
      by done.
    split; [by destruct err|]. split.
    + eexists. split; [reflexivity|]. intros m Hm. unfold call_info in Hm.
      rewrite list_elem_of_singleton in Hm. discriminate Hm.
    + unfold Httpx.json. rewrite Hdecoded. by intros [? ?].
Qed.

(** Witness of the evaluation for C8: a 404 answer is handed back, and
    the two records written for it are debug records. *)
Lemma status_failure_is_neither_logged_nor_raised_witness :
  (call_api Scenario.url_check (Scenario.always Scenario.not_found)
            Scenario.plain_client LIST_TEAMS_ENDPOINT None no_history).1
    = Returned Scenario.not_found /\
  exists new : list LogRecord,
    log (call_api Scenario.url_check (Scenario.always Scenario.not_found)
                  Scenario.plain_client LIST_TEAMS_ENDPOINT None no_history).2
      = log no_history ++ new /\
    forall m, ERROR m ∉ new.
Proof.
  destruct (status_failure_is_neither_logged_nor_raised
              Scenario.url_check (Scenario.always Scenario.not_found)
              Scenario.plain_client LIST_TEAMS_ENDPOINT None no_history
              Scenario.not_found eq_refl eq_refl eq_refl)
    as (_ & Hlog & Hreturned).
  split; [|exact Hlog]. apply Hreturned. by eexists.
Defined.

(** C1, on the code. With retry enabled and a limit of one second, and a
    server that answers HTTP 503 on every attempt, [call_api] hands the
    503 response back as its result and writes no error record; the
    retry-wrapped alias sees a call that returned, so that it hands the
    same response back after one request.  No status error is raised. *)
Theorem status_503_is_returned_with_backoff
    (invalid_url : string -> option string)
    (retry : Backoff.OnException -> M Httpx.Response -> M Httpx.Response) :
  invalid_url "https://api.example.com" = None ->
  returns_what_target_returns retry ->
  Httpx.is_error Scenario.unavailable = true /\
  exists (self : SWCClient) (w' : World),
    init Scenario.backoff_1s no_history = (Returned self, w') /\
    get_url self = Some (configured_retry 1) /\
    call_api invalid_url (Scenario.always Scenario.unavailable) self
             LIST_LEAGUES_ENDPOINT None w' =
      (Returned Scenario.unavailable,
       {| requests := [request_of self LIST_LEAGUES_ENDPOINT None];
          log := log w' ++ [call_info self LIST_LEAGUES_ENDPOINT None;
                            DEBUG (ResponseJSON (JObject []))] |}) /\
    call_get_url invalid_url (Scenario.always Scenario.unavailable) retry self
                 LIST_LEAGUES_ENDPOINT None w' =
      (Returned Scenario.unavailable,
       {| requests := [request_of self LIST_LEAGUES_ENDPOINT None];
          log := log w' ++ [call_info self LIST_LEAGUES_ENDPOINT None;
                            DEBUG (ResponseJSON (JObject []))] |}).
Proof.
  intros Hurl Hretry. split; [reflexivity|].
  destruct (init_returns Scenario.backoff_1s no_history)
    as (self & Hrun & Hbase & _ & _ & _ & _ & Hget).
  match type of Hrun with _ = (_, ?w) => set (w' := w) in * end.
  exists self, w'. split; [exact Hrun|]. split; [exact Hget|].
  assert (Haccepted : invalid_url (swc_base_url self) = None) by by rewrite Hbase.
  pose proof (call_api_delivered invalid_url (Scenario.always Scenario.unavailable)
                self LIST_LEAGUES_ENDPOINT None w' Scenario.unavailable (JObject [])
                Haccepted eq_refl eq_refl) as Hcall.
  split; [exact Hcall|].
  unfold call_get_url, getattr_get_url. rewrite Hget.
  unfold mbind, M_bind, mret, M_ret.
  apply Hretry. exact Hcall.
Qed.

(** Witness of the evaluation for C1, with the decorator that only calls
    its target. *)
Lemma status_503_is_returned_with_backoff_witness :
  exists (self : SWCClient) (w' : World),
    init Scenario.backoff_1s no_history = (Returned self, w') /\
    (call_get_url Scenario.url_check (Scenario.always Scenario.unavailable)
                  retry_never self LIST_LEAGUES_ENDPOINT None w').1
      = Returned Scenario.unavailable.
Proof.
  destruct (status_503_is_returned_with_backoff Scenario.url_check retry_never)
    as (_ & self & w' & Hrun & _ & _ & Hcall).
  - reflexivity.
  - intros f target w r w' Htarget. exact Htarget.
  - exists self, w'. split; [exact Hrun|]. by rewrite Hcall.
Defined.

(** C6, on the code. With retry disabled and a server that answers HTTP
    503, the call makes one request and hands the 503 response back as
    its result: no error reaches the caller and no error record is
    written. *)
Theorem status_503_is_returned_without_backoff
    (invalid_url : string -> option string) :
  invalid_url "https://api.example.com" = None ->
  Httpx.is_error Scenario.unavailable = true /\
  exists (self : SWCClient) (w' : World),
    init Scenario.no_backoff no_history = (Returned self, w') /\
    get_url self = None /\
    call_api invalid_url (Scenario.always Scenario.unavailable) self
             LIST_LEAGUES_ENDPOINT None w' =
      (Returned Scenario.unavailable,
       {| requests := [request_of self LIST_LEAGUES_ENDPOINT None];
          log := log w' ++ [call_info self LIST_LEAGUES_ENDPOINT None;
                            DEBUG (ResponseJSON (JObject []))] |}).
Proof.
  intros Hurl. split; [reflexivity|].
  destruct (init_returns Scenario.no_backoff no_history)
    as (self & Hrun & Hbase & _ & _ & _ & _ & Hget).
  match type of Hrun with _ = (_, ?w) => set (w' := w) in * end.
  exists self, w'. split; [exact Hrun|]. split; [exact Hget|].
  assert (Haccepted : invalid_url (swc_base_url self) = None) by by rewrite Hbase.
  exact (call_api_delivered invalid_url (Scenario.always Scenario.unavailable) self
           LIST_LEAGUES_ENDPOINT None w' Scenario.unavailable (JObject [])
           Haccepted eq_refl eq_refl).
Qed.

(** Witness of the evaluation for C6. *)
Lemma status_503_is_returned_without_backoff_witness :
  exists (self : SWCClient) (w' : World),
    init Scenario.no_backoff no_history = (Returned self, w') /\
    (call_api Scenario.url_check (Scenario.always Scenario.unavailable) self
              LIST_LEAGUES_ENDPOINT None w').1 = Returned Scenario.unavailable.
Proof.
  destruct (status_503_is_returned_without_backoff Scenario.url_check eq_refl)
    as (_ & self & w' & Hrun & _ & Hcall).
  exists self, w'. split; [exact Hrun|]. by rewrite Hcall.
Defined.

(** Without the retry wrapper, an exception of the one attempt reaches
    the caller at once: [call_api] issues one request and raises what the
    attempt raised. *)
Lemma no_backoff_error_propagates
    (invalid_url : string -> option string)
    (send : nat -> Httpx.Request -> PyResult Httpx.Response)
    (cfg : Config.SWCConfig) (w : World) :
  Config.swc_backoff cfg = false ->
  invalid_url (Config.swc_base_url cfg) = None ->
  exists (self : SWCClient) (w' : World),
    init cfg w = (Returned self, w') /\
    get_url self = None /\
    forall api_endpoint api_params e,
      send (length (requests w')) (request_of self api_endpoint api_params) = Raised e ->
      (call_api invalid_url send self api_endpoint api_params w').1 = Raised e /\
      requests (call_api invalid_url send self api_endpoint api_params w').2 =
        requests w' ++ [request_of self api_endpoint api_params].
Proof.
  intros Hoff Hurl.
  destruct (init_returns cfg w) as (self & Hrun & Hbase & _ & _ & _ & _ & Hget).
  rewrite Hoff in Hget. rewrite <- Hbase in Hurl.
  exists self. eexists. split; [exact Hrun|]. split; [exact Hget|].
  intros ep ps e Hsend. split; [|by apply call_api_requests].
  by rewrite (call_api_raised invalid_url send self ep ps _ e).
Qed.

(* ===================================================================== *)
(** ** The retry-wrapped alias *)
(* ===================================================================== *)

(** C10. The constructed client has the attribute [get_url] exactly when
    backoff is enabled; on a client built with backoff disabled, calling
    [get_url] ends with an attribute error before anything else happens:
    no request goes out and nothing is logged, so the plain call path is
    not taken instead. *)
Theorem get_url_requires_backoff
    (invalid_url : string -> option string)
    (send : nat -> Httpx.Request -> PyResult Httpx.Response)
    (retry : Backoff.OnException -> M Httpx.Response -> M Httpx.Response)
    (cfg : Config.SWCConfig) (w : World) :
  exists (self : SWCClient) (w' : World),
    init cfg w = (Returned self, w') /\
    (is_Some (get_url self) <-> Config.swc_backoff cfg = true) /\
    (Config.swc_backoff cfg = false ->
     forall api_endpoint api_params w0,
       call_get_url invalid_url send retry self api_endpoint api_params w0 =
         (Raised (AttributeError "get_url"), w0)).
Proof.
  destruct (init_returns cfg w) as (self & Hrun & _ & _ & _ & _ & _ & Hget).
  exists self. eexists. split; [exact Hrun|]. split.
  - rewrite Hget. by destruct (Config.swc_backoff cfg); split.
  - intros Hoff ep ps w0. rewrite Hoff in Hget.
    unfold call_get_url, getattr_get_url. by rewrite Hget.
Qed.

(** Witness of C10 on the configuration without backoff. *)
Lemma get_url_requires_backoff_witness :
  exists (self : SWCClient) (w' : World),
    init Scenario.no_backoff no_history = (Returned self, w') /\
    call_get_url Scenario.url_check Scenario.unreachable retry_never self
                 LIST_PLAYERS_ENDPOINT None w' =
      (Raised (AttributeError "get_url"), w').
Proof.
  destruct (get_url_requires_backoff Scenario.url_check Scenario.unreachable
              retry_never Scenario.no_backoff no_history)
    as (self & w' & Hrun & _ & Hmissing).
  exists self, w'. split; [exact Hrun|]. apply Hmissing. reflexivity.
Defined.

(** C7, on the code. With retry enabled and a limit of one second, a
    call through the retry-wrapped path to a server that answers HTTP
    503 on every attempt is not retried: on every clock, whatever the
    jitter, the loop sees its first attempt return, so that one request
    goes out, the 503 response is handed back and no error is raised,
    long before the time limit. *)
Theorem status_503_is_not_retried
    (invalid_url : string -> option string) (clk : Clock) (fuel : nat) :
  invalid_url "https://api.example.com" = None ->
  Httpx.is_error Scenario.unavailable = true /\
  exists (self : SWCClient) (w' : World),
    init Scenario.backoff_1s no_history = (Returned self, w') /\
    get_url self = Some (configured_retry 1) /\
    call_get_url invalid_url (Scenario.always Scenario.unavailable)
                 (on_exception clk fuel) self LIST_LEAGUES_ENDPOINT None w' =
      (Returned Scenario.unavailable,
       {| requests := [request_of self LIST_LEAGUES_ENDPOINT None];
          log := log w' ++ [call_info self LIST_LEAGUES_ENDPOINT None;
                            DEBUG (ResponseJSON (JObject []))] |}).
Proof.
  intros Hurl. split; [reflexivity|].
  destruct (init_returns Scenario.backoff_1s no_history)
    as (self & Hrun & Hbase & _ & _ & _ & _ & Hget).
  match type of Hrun with _ = (_, ?w) => set (w' := w) in * end.
  exists self, w'. split; [exact Hrun|]. split; [exact Hget|].
  assert (Haccepted : invalid_url (swc_base_url self) = None) by by rewrite Hbase.
  unfold call_get_url, getattr_get_url. rewrite Hget.
  unfold mbind, M_bind, mret, M_ret.
  apply on_exception_returns.
  exact (call_api_delivered invalid_url (Scenario.always Scenario.unavailable) self
           LIST_LEAGUES_ENDPOINT None w' Scenario.unavailable (JObject [])
           Haccepted eq_refl eq_refl).
Qed.

(** Witness of the evaluation for C7 on the millisecond clock. *)
Lemma status_503_is_not_retried_witness :
  exists (self : SWCClient) (w' : World),
    init Scenario.backoff_1s no_history = (Returned self, w') /\
    call_get_url Scenario.url_check (Scenario.always Scenario.unavailable)
                 (on_exception Scenario.clock 2000) self LIST_LEAGUES_ENDPOINT None w' =
      (Returned Scenario.unavailable,
       {| requests := [request_of self LIST_LEAGUES_ENDPOINT None];
          log := log w' ++ [call_info self LIST_LEAGUES_ENDPOINT None;
                            DEBUG (ResponseJSON (JObject []))] |}).
Proof.
  destruct (status_503_is_not_retried Scenario.url_check Scenario.clock 2000 eq_refl)
    as (_ & self & w' & Hrun & _ & Hcall).
  exists self, w'. split; [exact Hrun|exact Hcall].
Defined.

(** What a call to a server that cannot be reached leaves behind: one
    more request, the debug record of the call and the error record. *)
Lemma unreachable_call
    (invalid_url : string -> option string)
    (send : nat -> Httpx.Request -> PyResult Httpx.Response)
    (message : nat -> string)
    (self : SWCClient) (api_endpoint : string)
    (api_params : option (gmap string PyVal)) (w : World) :
  invalid_url (swc_base_url self) = None ->
  (forall n req, send n req = Raised (RequestError (message n))) ->
  call_api invalid_url send self api_endpoint api_params w =
    (Raised (RequestError (message (length (requests w)))),
     {| requests := requests w ++ [request_of self api_endpoint api_params];
        log := log w ++ [call_info self api_endpoint api_params;
                         ERROR (RequestErrorOccurred
                                  (message (length (requests w))))] |}).
Proof.
  intros Hurl Hsend.
  exact (call_api_raised invalid_url send self api_endpoint api_params w _
           Hurl (Hsend _ _)).
Qed.

(** The retry path on transport errors.  On a client built with backoff
    enabled, a call through [get_url] to a server that cannot be reached
    is repeated, on a clock that runs forward, until an attempt fails
    after the configured time limit; the error of that last attempt is
    raised.  The attempts before it all failed within the limit, and
    there are more than [n] of them whenever the limit leaves time for
    [n]: nothing but the time limit ends the loop. *)
Lemma transport_errors_are_retried_until_the_limit
    (invalid_url : string -> option string)
    (send : nat -> Httpx.Request -> PyResult Httpx.Response)
    (message : nat -> string) (clk : Clock) (fuel : nat)
    (cfg : Config.SWCConfig) (w : World)
    (api_endpoint : string) (api_params : option (gmap string PyVal)) :
  Config.swc_backoff cfg = true ->
  invalid_url (Config.swc_base_url cfg) = None ->
  (forall n req, send n req = Raised (RequestError (message n))) ->
  runs_forward clk ->
  ticks_per_second clk * Config.swc_backoff_max_time cfg < Z.of_nat fuel ->
  exists (self : SWCClient) (w' : World) (m : nat),
    init cfg w = (Returned self, w') /\
    (call_get_url invalid_url send (on_exception clk fuel) self
                  api_endpoint api_params w').1 =
      Raised (RequestError (message (length (requests w') + m)%nat)) /\
    requests (call_get_url invalid_url send (on_exception clk fuel) self
                           api_endpoint api_params w').2 =
      requests w' ++ replicate (S m) (request_of self api_endpoint api_params) /\
    ticks_per_second clk * Config.swc_backoff_max_time cfg < failed_at clk m /\
    (forall j, (j < m)%nat ->
               failed_at clk j <= ticks_per_second clk * Config.swc_backoff_max_time cfg) /\
    (forall n, failed_at clk n <= ticks_per_second clk * Config.swc_backoff_max_time cfg ->
               (n < m)%nat).
Proof.
  intros Hon Hurl Hsend Hclk Hfuel.
  destruct (init_returns cfg w) as (self & Hrun & Hbase & _ & _ & _ & _ & Hget).
  rewrite Hon in Hget. rewrite <- Hbase in Hurl.
  match type of Hrun with _ = (_, ?w0) => set (w' := w0) in * end.
  set (req := request_of self api_endpoint api_params).
  set (err := fun w0 : World => RequestError (message (length (requests w0)))).
  set (step := fun w0 : World =>
         {| requests := requests w0 ++ [req];
            log := log w0 ++ [call_info self api_endpoint api_params;
                              ERROR (RequestErrorOccurred
                                       (message (length (requests w0))))] |}).
  destruct (retry_loop_gives_up clk
              (configured_retry (Config.swc_backoff_max_time cfg))
              (call_api invalid_url send self api_endpoint api_params)
              err step (Config.swc_backoff_max_time cfg) Hclk eq_refl eq_refl)
    with (fuel := fuel) (k := 0%nat) (w := w')
    as (m & Hloop & Hlate & Hearlier).
  { intros w0. split; [|reflexivity].
    exact (unreachable_call invalid_url send message self api_endpoint
             api_params w0 Hurl Hsend). }
  { simpl. lia. }
  assert (Hrequests : forall i w0,
            requests (Nat.iter i step w0) = requests w0 ++ replicate i req).
  { induction i as [|i IH]; intros w0.
    - simpl. by rewrite app_nil_r.
    - rewrite Nat.iter_succ_r, IH. simpl. by rewrite <- app_assoc. }
  exists self, w', m. split; [exact Hrun|].
  unfold call_get_url, getattr_get_url. rewrite Hget.
  unfold mbind, M_bind, mret, M_ret, on_exception.
  change (started_at clk 0) with 0 in Hloop. rewrite Hloop. cbn [fst snd].
  split; [|split; [|split; [|split]]].
  - unfold err. by rewrite Hrequests, length_app, length_replicate.
  - by rewrite Hrequests.
  - exact Hlate.
  - exact Hearlier.
  - intros n Hn. destruct (Nat.lt_ge_cases n m) as [Hlt|Hge]; [exact Hlt|].
    pose proof (failed_at_monotone clk m n Hclk Hge). simpl in Hlate. lia.
Qed.

(** On the millisecond clock and with a limit of one second, a server
    that cannot be reached is tried twice: the first attempt fails after
    20 ms, the wait lasts 1250 ms, and the second attempt fails after the
    limit. *)
Example unreachable_server_is_tried_twice :
  exists (self : SWCClient) (w' : World),
    init Scenario.backoff_1s no_history = (Returned self, w') /\
    (call_get_url Scenario.url_check Scenario.unreachable
                  (on_exception Scenario.clock 2000) self
                  LIST_LEAGUES_ENDPOINT None w').1 =
      Raised (RequestError "connection refused") /\
    requests (call_get_url Scenario.url_check Scenario.unreachable
                (on_exception Scenario.clock 2000) self
                LIST_LEAGUES_ENDPOINT None w').2 =
      [request_of self LIST_LEAGUES_ENDPOINT None;
       request_of self LIST_LEAGUES_ENDPOINT None].
Proof.
  destruct (transport_errors_are_retried_until_the_limit
              Scenario.url_check Scenario.unreachable
              (fun _ => "connection refused") Scenario.clock 2000
              Scenario.backoff_1s no_history LIST_LEAGUES_ENDPOINT None)
    as (self & w' & m & Hrun & Hraised & Hrequests & Hlate & Hearlier & Hmore);
    try reflexivity.
  { repeat split; try reflexivity; intros k; simpl; [lia|].
    destruct (Nat.even k); lia. }
  assert (m = 1%nat) as ->.
  { assert (0 < m)%nat by (apply Hmore; vm_compute; discriminate).
    destruct (decide (m = 1%nat)) as [|Hne]; [done|].
    assert (failed_at Scenario.clock 1 <=
              ticks_per_second Scenario.clock
              * Config.swc_backoff_max_time Scenario.backoff_1s)
      as Habsurd by (apply Hearlier; lia).
    vm_compute in Habsurd. by exfalso; apply Habsurd. }
  exists self, w'. split; [exact Hrun|]. split; [exact Hraised|].
  rewrite Hrequests. injection Hrun as _ <-. reflexivity.
Qed.

(* ===================================================================== *)
(** ** Further properties of the constructor *)
(* ===================================================================== *)

(** X1. Construction touches no server: for every configuration the
    constructor returns a client, issues no request and writes exactly
    three records, all at debug level; the four configured values are
    stored as given, the format with the spelling it was configured
    with. *)
Theorem construction_is_offline (cfg : Config.SWCConfig) (w : World) :
  exists (self : SWCClient) (w' : World),
    init cfg w = (Returned self, w') /\
    requests w' = requests w /\
    (exists a b c, log w' = log w ++ [DEBUG a; DEBUG b; DEBUG c]) /\
    swc_base_url self = Config.swc_base_url cfg /\
    backoff self = Config.swc_backoff cfg /\
    backoff_max_time self = Config.swc_backoff_max_time cfg /\
    bulk_file_format self = Config.swc_bulk_file_format cfg.
Proof.
  destruct (init_returns cfg w) as (self & Hrun & Hurl & Hbo & Hmt & Hfmt & _).
  exists self. eexists. split; [exact Hrun|]. cbn [requests log].
  split; [reflexivity|]. split; [by eauto|]. by repeat split.
Qed.

(** X2. On a client built with backoff enabled, [get_url] is the retry
    decorator around [call_api] with the same arguments, configured with
    exponential waits, random jitter, the two [httpx] error classes, the
    configured time limit and no limit on the number of tries. *)
Theorem get_url_wraps_call_api
    (invalid_url : string -> option string)
    (send : nat -> Httpx.Request -> PyResult Httpx.Response)
    (retry : Backoff.OnException -> M Httpx.Response -> M Httpx.Response)
    (cfg : Config.SWCConfig) (w : World) :
  Config.swc_backoff cfg = true ->
  exists (self : SWCClient) (w' : World) (f : Backoff.OnException),
    init cfg w = (Returned self, w') /\
    get_url self = Some f /\
    Backoff.wait_gen f = Backoff.expo /\
    Backoff.jitter f = Some Backoff.random_jitter /\
    Backoff.exception f = [RequestError_cls; HTTPStatusError_cls] /\
    Backoff.max_time f = Some (Config.swc_backoff_max_time cfg) /\
    Backoff.max_tries f = None /\
    forall api_endpoint api_params w0,
      call_get_url invalid_url send retry self api_endpoint api_params w0 =
        retry f (call_api invalid_url send self api_endpoint api_params) w0.
Proof.
  intros Hon.
  destruct (init_returns cfg w) as (self & Hrun & _ & _ & _ & _ & _ & Hget).
  rewrite Hon in Hget.
  exists self. eexists. exists (configured_retry (Config.swc_backoff_max_time cfg)).
  split; [exact Hrun|]. split; [exact Hget|]. repeat (split; [reflexivity|]).
  intros ep ps w0. unfold call_get_url, getattr_get_url. by rewrite Hget.
Qed.

(** Witness of X2 on the configuration with a limit of one second. *)
Lemma get_url_wraps_call_api_witness :
  exists (self : SWCClient) (w' : World) (f : Backoff.OnException),
    init Scenario.backoff_1s no_history = (Returned self, w') /\
    get_url self = Some f /\
    Backoff.max_time f = Some 1 /\
    Backoff.max_tries f = None.
Proof.
  destruct (get_url_wraps_call_api Scenario.url_check Scenario.unreachable retry_never
              Scenario.backoff_1s no_history eq_refl)
    as (self & w' & f & Hrun & Hget & _ & _ & _ & Htime & Htries & _).
  exists self, w', f. by repeat split.
Defined.

(** The entries of the dictionary literal. *)
Lemma bulk_file_basenames_lookup (key stem : string) :
  bulk_file_basenames !! key = Some stem ->
  (key = "players" /\ stem = "player_data") \/
  (key = "leagues" /\ stem = "league_data") \/
  (key = "performances" /\ stem = "performance_data") \/
  (key = "teams" /\ stem = "team_data") \/
  (key = "team_players" /\ stem = "team_player_data").
Proof.
  unfold bulk_file_basenames.
  rewrite !lookup_insert_Some, lookup_empty.
  intros [[<- <-]|[_ [[<- <-]|[_ [[<- <-]|[_ [[<- <-]|[_ [[<- <-]|[_ ?]]]]]]]]]];
    try discriminate; tauto.
Qed.

(** X3. No two entities share a bulk file: in the table of every
    constructed client, different keys map to different file names. *)
Theorem bulk_file_names_distinct (cfg : Config.SWCConfig) (w : World) :
  exists (self : SWCClient) (w' : World),
    init cfg w = (Returned self, w') /\
    forall key1 key2 name,
      BULK_FILE_NAMES self !! key1 = Some name ->
      BULK_FILE_NAMES self !! key2 = Some name ->
      key1 = key2.
Proof.
  destruct (init_returns cfg w) as (self & Hrun & _ & _ & _ & _ & Hnames & _).
  exists self. eexists. split; [exact Hrun|]. rewrite Hnames.
  intros key1 key2 name. rewrite !lookup_fmap.
  intros (stem1 & Hstem1 & ->)%fmap_Some (stem2 & Hstem2 & Heq)%fmap_Some.
  apply bulk_file_basenames_lookup in Hstem1, Hstem2.
  destruct Hstem1 as [[-> ->]|[[-> ->]|[[-> ->]|[[-> ->]|[-> ->]]]]];
    destruct Hstem2 as [[-> ->]|[[-> ->]|[[-> ->]|[[-> ->]|[-> ->]]]]];
    first [reflexivity | exfalso; cbv [String.app String.append] in Heq; congruence].
Qed.

(** Witness of X3: the file of the players belongs to no other key. *)
Lemma bulk_file_names_distinct_witness :
  exists (self : SWCClient) (w' : World),
    init Scenario.no_backoff no_history = (Returned self, w') /\
    forall key, BULK_FILE_NAMES self !! key = Some "player_data.csv" -> key = "players".
Proof.
  destruct (bulk_file_names_distinct Scenario.no_backoff no_history)
    as (self & w' & Hrun & Hdistinct).
  exists self, w'. split; [exact Hrun|].
  intros key Hkey. apply (Hdistinct key "players" "player_data.csv" Hkey).
  injection Hrun as <- _. reflexivity.
Defined.

(** X4. The table depends on the configuration through the format only,
    and on the format only up to case: two configurations whose formats
    are equal when case is ignored give clients with the same table,
    whatever their other settings. *)
Theorem bulk_file_names_ignore_case (cfg1 cfg2 : Config.SWCConfig) (w1 w2 : World) :
  caseless_eq (Config.swc_bulk_file_format cfg1) (Config.swc_bulk_file_format cfg2) ->
  exists (self1 self2 : SWCClient) (w1' w2' : World),
    init cfg1 w1 = (Returned self1, w1') /\
    init cfg2 w2 = (Returned self2, w2') /\
    BULK_FILE_NAMES self1 = BULK_FILE_NAMES self2.
Proof.
  intros Hcase.
  destruct (init_returns cfg1 w1) as (self1 & Hrun1 & _ & _ & _ & _ & Hnames1 & _).
  destruct (init_returns cfg2 w2) as (self2 & Hrun2 & _ & _ & _ & _ & Hnames2 & _).
  exists self1, self2. do 2 eexists.
  split; [exact Hrun1|]. split; [exact Hrun2|].
  rewrite Hnames1, Hnames2. unfold extension. by rewrite Hcase.
Qed.

(** Witness of X4: the formats CSV and csv, with different other
    settings. *)
Lemma bulk_file_names_ignore_case_witness :
  exists (self1 self2 : SWCClient) (w1' w2' : World),
    init {| Config.swc_base_url := "http://localhost:8000";
            Config.swc_backoff := true;
            Config.swc_backoff_max_time := 5;
            Config.swc_bulk_file_format := "CSV" |} no_history = (Returned self1, w1') /\
    init Scenario.no_backoff no_history = (Returned self2, w2') /\
    BULK_FILE_NAMES self1 = BULK_FILE_NAMES self2.
Proof.
  apply (bulk_file_names_ignore_case
           {| Config.swc_base_url := "http://localhost:8000";
              Config.swc_backoff := true;
              Config.swc_backoff_max_time := 5;
              Config.swc_bulk_file_format := "CSV" |}
           Scenario.no_backoff no_history no_history).
  reflexivity.
Defined.

(* ===================================================================== *)
(** ** Further properties of one call *)
(* ===================================================================== *)

(** X5. [call_api] invents no result: a response it returns is the one
    the GET delivered, on a base URL that [httpx] accepted, and its body
    decoded as JSON. *)
Theorem returned_response_was_delivered
    (invalid_url : string -> option string)
    (send : nat -> Httpx.Request -> PyResult Httpx.Response)
    (self : SWCClient) (api_endpoint : string)
    (api_params : option (gmap string PyVal)) (w : World) (r : Httpx.Response) :
  (call_api invalid_url send self api_endpoint api_params w).1 = Returned r ->
  invalid_url (swc_base_url self) = None /\
  send (length (requests w)) (request_of self api_endpoint api_params) = Returned r /\
  is_Some (Httpx.json r).
Proof.
  destruct (invalid_url (swc_base_url self)) as [message|] eqn:Hurl.
  { by rewrite (call_api_rejected invalid_url send self api_endpoint api_params
                  w message). }
  destruct (send (length (requests w)) (request_of self api_endpoint api_params))
    as [r0|e] eqn:Hsend.
  - destruct (Httpx.decoded r0) as [j|err] eqn:Hdecoded.
    + rewrite (call_api_delivered invalid_url send self api_endpoint api_params
                 w r0 j); [|done..|unfold Httpx.json; by rewrite Hdecoded].
      intros [= <-]. unfold Httpx.json. rewrite Hdecoded. by eauto.
    + by rewrite (call_api_undecodable invalid_url send self api_endpoint
                    api_params w r0 err).
  - by rewrite (call_api_raised invalid_url send self api_endpoint api_params w e).
Qed.

(** Witness of X5 on the 503 answer with a JSON body. *)
Lemma returned_response_was_delivered_witness :
  Scenario.url_check (swc_base_url Scenario.plain_client) = None /\
  Scenario.always Scenario.unavailable 0
    (request_of Scenario.plain_client LIST_LEAGUES_ENDPOINT None)
    = Returned Scenario.unavailable /\
  is_Some (Httpx.json Scenario.unavailable).
Proof.
  apply (returned_response_was_delivered Scenario.url_check
           (Scenario.always Scenario.unavailable) Scenario.plain_client
           LIST_LEAGUES_ENDPOINT None no_history Scenario.unavailable).
  reflexivity.
Defined.

(** X6. An exception that leaves [call_api] has one of three origins:
    [httpx.Client] raised it as [InvalidURL] for the base URL, before any
    record or request; or the GET raised it, and it leaves unchanged; or
    the GET delivered a response whose body does not decode, and it is
    the error [response.json()] raised for that body. *)
Theorem raised_exception_origin
    (invalid_url : string -> option string)
    (send : nat -> Httpx.Request -> PyResult Httpx.Response)
    (self : SWCClient) (api_endpoint : string)
    (api_params : option (gmap string PyVal)) (w : World) (e : Exn) :
  (call_api invalid_url send self api_endpoint api_params w).1 = Raised e ->
  (exists message,
     invalid_url (swc_base_url self) = Some message /\ e = InvalidURL message) \/
  (invalid_url (swc_base_url self) = None /\
   send (length (requests w)) (request_of self api_endpoint api_params) = Raised e) \/
  (invalid_url (swc_base_url self) = None /\
   exists r err,
     send (length (requests w)) (request_of self api_endpoint api_params) = Returned r /\
     Httpx.decoded r = inr err /\
     e = decode_exn err).
Proof.
  destruct (invalid_url (swc_base_url self)) as [message|] eqn:Hurl.
  { rewrite (call_api_rejected invalid_url send self api_endpoint api_params
               w message) by done.
    intros [= <-]. left. by exists message. }
  intros Hraised. right.
  destruct (send (length (requests w)) (request_of self api_endpoint api_params))
    as [r0|e0] eqn:Hsend.
  - destruct (Httpx.decoded r0) as [j|err] eqn:Hdecoded.
    + rewrite (call_api_delivered invalid_url send self api_endpoint api_params
                 w r0 j) in Hraised;
        [done|done..|unfold Httpx.json; by rewrite Hdecoded].
    + rewrite (call_api_undecodable invalid_url send self api_endpoint api_params
                 w r0 err) in Hraised by done.
      injection Hraised as <-. right. split; [done|]. by exists r0, err.
  - rewrite (call_api_raised invalid_url send self api_endpoint api_params w e0)
      in Hraised by done.
    injection Hraised as <-. by left.
Qed.

(** Witness of X6 on a base URL with a port that is no number. *)
Lemma raised_exception_origin_witness :
  (exists message,
     Scenario.url_check (swc_base_url Scenario.bad_port_client) = Some message /\
     InvalidURL "Invalid port: 'abc'" = InvalidURL message) \/
  (Scenario.url_check (swc_base_url Scenario.bad_port_client) = None /\
   Scenario.always Scenario.unavailable 0
     (request_of Scenario.bad_port_client
                 HEALTH_CHECK_ENDPOINT None)
     = Raised (InvalidURL "Invalid port: 'abc'")) \/
  (Scenario.url_check (swc_base_url Scenario.bad_port_client) = None /\
   exists r err,
     Scenario.always Scenario.unavailable 0
       (request_of Scenario.bad_port_client
                   HEALTH_CHECK_ENDPOINT None) = Returned r /\
     Httpx.decoded r = inr err /\
     InvalidURL "Invalid port: 'abc'" = decode_exn err).
Proof.
  apply (raised_exception_origin Scenario.url_check
           (Scenario.always Scenario.unavailable)
           Scenario.bad_port_client
           HEALTH_CHECK_ENDPOINT None no_history (InvalidURL "Invalid port: 'abc'")).
  reflexivity.
Defined.

(** X7. An exception raised by the GET that is neither a [RequestError]
    nor an [HTTPStatusError] passes both [except] clauses: it leaves
    [call_api] unchanged, and no error record is written for it. *)
Theorem other_exceptions_pass_unlogged
    (invalid_url : string -> option string)
    (send : nat -> Httpx.Request -> PyResult Httpx.Response)
    (self : SWCClient) (api_endpoint : string)
    (api_params : option (gmap string PyVal)) (w : World) (e : Exn) :
  invalid_url (swc_base_url self) = None ->
  send (length (requests w)) (request_of self api_endpoint api_params) = Raised e ->
  isinstance e RequestError_cls = false ->
  isinstance e HTTPStatusError_cls = false ->
  call_api invalid_url send self api_endpoint api_params w =
    (Raised e,
     {| requests := requests w ++ [request_of self api_endpoint api_params];
        log := log w ++ [call_info self api_endpoint api_params] |}).
Proof.
  intros Hurl Hsend Hrequest Hstatus.
  rewrite (call_api_raised invalid_url send self api_endpoint api_params w e) by done.
  by destruct e.
Qed.

(** Witness of X7: an exception of another class. *)
Lemma other_exceptions_pass_unlogged_witness :
  call_api Scenario.url_check
           (fun _ _ => Raised (OtherError "KeyboardInterrupt" ""))
           Scenario.plain_client LIST_TEAMS_ENDPOINT None no_history =
    (Raised (OtherError "KeyboardInterrupt" ""),
     {| requests := [request_of Scenario.plain_client LIST_TEAMS_ENDPOINT None];
        log := [call_info Scenario.plain_client LIST_TEAMS_ENDPOINT None] |}).
Proof.
  apply (other_exceptions_pass_unlogged Scenario.url_check
           (fun _ _ => Raised (OtherError "KeyboardInterrupt" ""))
           Scenario.plain_client LIST_TEAMS_ENDPOINT None no_history
           (OtherError "KeyboardInterrupt" ""));
    reflexivity.
Defined.

(** X8. A delivered response whose body is not JSON ends the call with
    the decoding error, after one request and without an error record;
    that error is of neither class the retry decorator is configured
    for. *)
Theorem undecodable_body_raises_unretried
    (invalid_url : string -> option string)
    (send : nat -> Httpx.Request -> PyResult Httpx.Response)
    (self : SWCClient) (api_endpoint : string)
    (api_params : option (gmap string PyVal)) (w : World)
    (r : Httpx.Response) (max_time : Z) :
  invalid_url (swc_base_url self) = None ->
  send (length (requests w)) (request_of self api_endpoint api_params) = Returned r ->
  Httpx.json r = None ->
  exists e,
    call_api invalid_url send self api_endpoint api_params w =
      (Raised e,
       {| requests := requests w ++ [request_of self api_endpoint api_params];
          log := log w ++ [call_info self api_endpoint api_params] |}) /\
    existsb (isinstance e) (Backoff.exception (configured_retry max_time)) = false.
Proof.
  intros Hurl Hsend [err Hdecoded]%json_None_decoded. exists (decode_exn err).
  split; [|by destruct err].
  exact (call_api_undecodable invalid_url send self api_endpoint api_params w r err
           Hurl Hsend Hdecoded).
Qed.

(** Witness of X8 on the 502 page of a gateway. *)
Lemma undecodable_body_raises_unretried_witness :
  exists e,
    call_api Scenario.url_check (Scenario.always Scenario.bad_gateway)
             Scenario.plain_client HEALTH_CHECK_ENDPOINT None no_history =
      (Raised e,
       {| requests := [request_of Scenario.plain_client HEALTH_CHECK_ENDPOINT None];
          log := [call_info Scenario.plain_client HEALTH_CHECK_ENDPOINT None] |}) /\
    existsb (isinstance e) (Backoff.exception (configured_retry 1)) = false.
Proof.
  apply (undecodable_body_raises_unretried Scenario.url_check
           (Scenario.always Scenario.bad_gateway) Scenario.plain_client
           HEALTH_CHECK_ENDPOINT None no_history Scenario.bad_gateway 1);
    reflexivity.
Defined.

(** X9. The log only grows, and it shows the request as it goes out: on
    a base URL that [httpx] accepts, every call issues one request and
    appends the debug record of its base URL, path and filtered
    parameters, followed by at most one more record; on a base URL that
    [httpx] rejects, the call raises [InvalidURL] and leaves the requests
    and the log as they were. *)
Theorem log_shows_the_request
    (invalid_url : string -> option string)
    (send : nat -> Httpx.Request -> PyResult Httpx.Response)
    (self : SWCClient) (api_endpoint : string)
    (api_params : option (gmap string PyVal)) (w : World) :
  (invalid_url (swc_base_url self) = None ->
   exists (req : Httpx.Request) (more : list LogRecord),
     requests (call_api invalid_url send self api_endpoint api_params w).2 =
       requests w ++ [req] /\
     log (call_api invalid_url send self api_endpoint api_params w).2 =
       log w ++ DEBUG (CallInfo (Httpx.base_url req) (Httpx.url req) (Httpx.params req))
             :: more /\
     (length more <= 1)%nat) /\
  (forall message,
     invalid_url (swc_base_url self) = Some message ->
     call_api invalid_url send self api_endpoint api_params w =
       (Raised (InvalidURL message), w)).
Proof.
  split; [|intros message Hurl; by apply call_api_rejected].
  intros Hurl. exists (request_of self api_endpoint api_params).
  destruct (send (length (requests w)) (request_of self api_endpoint api_params))
    as [r|e] eqn:Hsend.
  - destruct (Httpx.decoded r) as [j|err] eqn:Hdecoded.
    + rewrite (call_api_delivered invalid_url send self api_endpoint api_params
                 w r j); [|done..|unfold Httpx.json; by rewrite Hdecoded].
      exists [DEBUG (ResponseJSON j)]. by repeat split.
    + rewrite (call_api_undecodable invalid_url send self api_endpoint api_params
                 w r err) by done.
      exists []. repeat split. simpl. lia.
  - rewrite (call_api_raised invalid_url send self api_endpoint api_params w e)
      by done.
    exists (error_record e). repeat split. destruct e; simpl; lia.
Qed.

(** Witness of X9 on an accepted and on a rejected base URL. *)
Lemma log_shows_the_request_witness :
  (exists (req : Httpx.Request) (more : list LogRecord),
     requests (call_api Scenario.url_check Scenario.unreachable
                 Scenario.plain_client HEALTH_CHECK_ENDPOINT None no_history).2 =
       requests no_history ++ [req] /\
     log (call_api Scenario.url_check Scenario.unreachable
            Scenario.plain_client HEALTH_CHECK_ENDPOINT None no_history).2 =
       log no_history
         ++ DEBUG (CallInfo (Httpx.base_url req) (Httpx.url req) (Httpx.params req))
         :: more /\
     (length more <= 1)%nat) /\
  call_api Scenario.url_check Scenario.unreachable
    Scenario.bad_port_client
    HEALTH_CHECK_ENDPOINT None no_history =
    (Raised (InvalidURL "Invalid port: 'abc'"), no_history).
Proof.
  split.
  - apply (log_shows_the_request Scenario.url_check Scenario.unreachable
             Scenario.plain_client HEALTH_CHECK_ENDPOINT None no_history).
    reflexivity.
  - apply (log_shows_the_request Scenario.url_check Scenario.unreachable
             Scenario.bad_port_client
             HEALTH_CHECK_ENDPOINT None no_history).
    reflexivity.
Defined.

(** X10. An error record is written exactly when the GET raised a
    [RequestError] or an [HTTPStatusError]: never for a delivered
    response, whatever its status or body, never for an exception of
    another class, and never when the base URL is rejected. *)
Theorem error_record_iff_httpx_error
    (invalid_url : string -> option string)
    (send : nat -> Httpx.Request -> PyResult Httpx.Response)
    (self : SWCClient) (api_endpoint : string)
    (api_params : option (gmap string PyVal)) (w : World) :
  exists new : list LogRecord,
    log (call_api invalid_url send self api_endpoint api_params w).2 = log w ++ new /\
    ((exists m, ERROR m ∈ new) <->
     (invalid_url (swc_base_url self) = None /\
      exists e,
        send (length (requests w)) (request_of self api_endpoint api_params) = Raised e /\
        isinstance e RequestError_cls || isinstance e HTTPStatusError_cls = true)).
Proof.
  destruct (invalid_url (swc_base_url self)) as [message|] eqn:Hurl.
  { rewrite (call_api_rejected invalid_url send self api_endpoint api_params
               w message) by done.
    exists []. split; [by rewrite app_nil_r|]. split.
    - intros [m Hm]. by apply elem_of_nil in Hm.
    - by intros [? _]. }
  destruct (send (length (requests w)) (request_of self api_endpoint api_params))
    as [r|e] eqn:Hsend.
  - destruct (Httpx.decoded r) as [j|err] eqn:Hdecoded.
    + rewrite (call_api_delivered invalid_url send self api_endpoint api_params
                 w r j); [|done..|unfold Httpx.json; by rewrite Hdecoded].
      eexists. split; [reflexivity|]. split.
      * intros [m Hm]. unfold call_info in Hm.
        rewrite !elem_of_cons, elem_of_nil in Hm.
        by destruct Hm as [Hm|[Hm|[]]].
      * by intros (_ & e & He & _).
    + rewrite (call_api_undecodable invalid_url send self api_endpoint api_params
                 w r err) by done.
      eexists. split; [reflexivity|]. split.
      * intros [m Hm]. unfold call_info in Hm.
        rewrite list_elem_of_singleton in Hm. discriminate Hm.
      * by intros (_ & e & He & _).
  - rewrite (call_api_raised invalid_url send self api_endpoint api_params w e)
      by done.
    eexists. split; [reflexivity|]. split.
    + intros [m Hm]. split; [done|]. exists e. split; [done|].
      unfold call_info in Hm. rewrite elem_of_cons in Hm.
      destruct Hm as [Hm|Hm]; [discriminate Hm|].
      destruct e; simpl in *; try reflexivity; by apply elem_of_nil in Hm.
    + intros (_ & e' & [= <-] & Hclass).
      destruct e; try discriminate Hclass; simpl; eexists;
        apply elem_of_cons; right; apply list_elem_of_singleton; reflexivity.
Qed.

(* ===================================================================== *)
(** ** Further properties of the parameter filter *)
(* ===================================================================== *)

(** Filtering twice is filtering once. *)
Lemma strip_params_idempotent (ps : option (gmap string PyVal)) :
  strip_params (strip_params ps) = strip_params ps.
Proof.
  destruct ps as [d|]; [|reflexivity].
  destruct (decide (d = ∅)) as [->|Hne]; [reflexivity|].
  rewrite strip_params_nonempty by done.
  destruct (decide (filter (fun kv : string * PyVal => kv.2 ≠ PyNone) d = ∅))
    as [Hempty|Hfull].
  - rewrite Hempty. reflexivity.
  - rewrite strip_params_nonempty by done. f_equal.
    apply map_eq. intros key. apply option_eq. intros val.
    rewrite !map_lookup_filter_Some. tauto.
Qed.

(** X11. Leaving the absent parameters out beforehand makes no
    difference: a call with the mapping already filtered ends the same
    way, with the same request and the same log, as the call with the
    mapping as given. *)
Theorem prefiltered_call_is_the_same_call
    (invalid_url : string -> option string)
    (send : nat -> Httpx.Request -> PyResult Httpx.Response)
    (self : SWCClient) (api_endpoint : string)
    (api_params : option (gmap string PyVal)) (w : World) :
  call_api invalid_url send self api_endpoint (strip_params api_params) w =
  call_api invalid_url send self api_endpoint api_params w.
Proof.
  unfold call_api. by rewrite strip_params_idempotent.
Qed.

(** X12. The request carries no parameter dictionary exactly when the
    caller passed none; a dictionary is never dropped, and one whose
    values are all [None] goes out as the empty dictionary. *)
Theorem params_presence_is_kept
    (invalid_url : string -> option string)
    (send : nat -> Httpx.Request -> PyResult Httpx.Response)
    (self : SWCClient) (api_endpoint : string)
    (api_params : option (gmap string PyVal)) (w : World) :
  invalid_url (swc_base_url self) = None ->
  exists req : Httpx.Request,
    requests (call_api invalid_url send self api_endpoint api_params w).2 =
      requests w ++ [req] /\
    (Httpx.params req = None <-> api_params = None) /\
    (forall d, api_params = Some d ->
               (forall key val, d !! key = Some val -> val = PyNone) ->
               Httpx.params req = Some ∅).
Proof.
  intros Hurl. exists (request_of self api_endpoint api_params).
  split; [by apply call_api_requests|]. cbn [request_of Httpx.params]. split.
  - destruct api_params as [d|]; [|done].
    unfold strip_params. by destruct (truthy (Some d)).
  - intros d -> Hall.
    destruct (decide (d = ∅)) as [->|Hne]; [reflexivity|].
    rewrite strip_params_nonempty by done. f_equal.
    apply map_empty_filter. intros key val Hlookup Hval.
    apply Hval. simpl. by apply (Hall key).
Qed.

(** Witness of X12: two absent parameters leave the empty dictionary. *)
Lemma params_presence_is_kept_witness :
  exists req : Httpx.Request,
    requests (call_api Scenario.url_check Scenario.unreachable
                Scenario.plain_client LIST_PLAYERS_ENDPOINT
                (Some {[ "first_name" := PyNone; "last_name" := PyNone ]})
                no_history).2 = [req] /\
    Httpx.params req = Some ∅.
Proof.
  destruct (params_presence_is_kept Scenario.url_check Scenario.unreachable
              Scenario.plain_client LIST_PLAYERS_ENDPOINT
              (Some {[ "first_name" := PyNone; "last_name" := PyNone ]})
              no_history eq_refl)
    as (req & Hreq & _ & Hall).
  exists req. split; [exact Hreq|].
  apply (Hall {[ "first_name" := PyNone; "last_name" := PyNone ]} eq_refl).
  intros key val. rewrite lookup_insert_Some, lookup_singleton_Some.
  intros [[_ <-]|[_ [_ <-]]]; reflexivity.
Defined.

(** X13. Parameters that are all present go out as given, and in every
    case the outgoing parameters are among the given ones: no key is
    added and no value is changed. *)
Theorem present_params_go_out_unchanged
    (invalid_url : string -> option string)
    (send : nat -> Httpx.Request -> PyResult Httpx.Response)
    (self : SWCClient) (api_endpoint : string)
    (d : gmap string PyVal) (w : World) :
  invalid_url (swc_base_url self) = None ->
  exists out : gmap string PyVal,
    requests (call_api invalid_url send self api_endpoint (Some d) w).2 =
      requests w ++ [ {| Httpx.base_url := swc_base_url self;
                         Httpx.url := api_endpoint;
                         Httpx.params := Some out |} ] /\
    out ⊆ d /\
    ((forall key, d !! key ≠ Some PyNone) -> out = d).
Proof.
  intros Hurl. destruct (decide (d = ∅)) as [->|Hne].
  - exists ∅. split; [|done]. by rewrite call_api_requests.
  - exists (filter (fun kv => kv.2 ≠ PyNone) d). split; [|split].
    + rewrite call_api_requests by done. unfold request_of.
      by rewrite strip_params_nonempty.
    + apply map_filter_subseteq.
    + intros Hpresent. apply map_filter_id. intros key val Hlookup. simpl.
      intros ->. by apply (Hpresent key).
Qed.

(** Witness of X13: paging parameters that are both given. *)
Lemma present_params_go_out_unchanged_witness :
  exists out : gmap string PyVal,
    requests (call_api Scenario.url_check Scenario.unreachable
                Scenario.plain_client LIST_PLAYERS_ENDPOINT
                (Some {[ "skip" := PyInt 0; "limit" := PyInt 100 ]})
                no_history).2 =
      [ {| Httpx.base_url := "https://api.example.com";
           Httpx.url := LIST_PLAYERS_ENDPOINT;
           Httpx.params := Some out |} ] /\
    out = {[ "skip" := PyInt 0; "limit" := PyInt 100 ]}.
Proof.
  destruct (present_params_go_out_unchanged Scenario.url_check
              Scenario.unreachable Scenario.plain_client LIST_PLAYERS_ENDPOINT
              {[ "skip" := PyInt 0; "limit" := PyInt 100 ]} no_history eq_refl)
    as (out & Hreq & _ & Hsame).
  exists out. split; [exact Hreq|]. apply Hsame.
  intros key. rewrite lookup_insert_Some, lookup_singleton_Some.
  intros [[_ ?]|[_ [_ ?]]]; discriminate.
Defined.

(* ===================================================================== *)
(** ** Calls in sequence and calls through the retry path *)
(* ===================================================================== *)

(** X14. The client keeps nothing between calls: against a server whose
    answer does not depend on how many requests came before, a call with
    the same arguments ends the same way whatever was requested or logged
    earlier. *)
Theorem outcome_ignores_history
    (invalid_url : string -> option string)
    (send : nat -> Httpx.Request -> PyResult Httpx.Response)
    (self : SWCClient) (api_endpoint : string)
    (api_params : option (gmap string PyVal)) (w1 w2 : World) :
  (forall n m req, send n req = send m req) ->
  (call_api invalid_url send self api_endpoint api_params w1).1 =
  (call_api invalid_url send self api_endpoint api_params w2).1.
Proof.
  intros Hsame.
  destruct (invalid_url (swc_base_url self)) as [message|] eqn:Hurl.
  { by rewrite !(call_api_rejected invalid_url send self api_endpoint api_params
                   _ message). }
  pose proof (Hsame (length (requests w1)) (length (requests w2))
                (request_of self api_endpoint api_params)) as Hsend.
  destruct (send (length (requests w2)) (request_of self api_endpoint api_params))
    as [r|e] eqn:Hsend2.
  - destruct (Httpx.decoded r) as [j|err] eqn:Hdecoded.
    + assert (Hjson : Httpx.json r = Some j)
        by (unfold Httpx.json; by rewrite Hdecoded).
      by rewrite !(call_api_delivered invalid_url send self api_endpoint
                     api_params _ r j).
    + by rewrite !(call_api_undecodable invalid_url send self api_endpoint
                     api_params _ r err).
  - by rewrite !(call_api_raised invalid_url send self api_endpoint api_params _ e).
Qed.

(** Witness of X14: the same call on a fresh world and after an earlier
    call. *)
Lemma outcome_ignores_history_witness :
  (call_api Scenario.url_check (Scenario.always Scenario.unavailable)
            Scenario.plain_client LIST_LEAGUES_ENDPOINT None no_history).1 =
  (call_api Scenario.url_check (Scenario.always Scenario.unavailable)
            Scenario.plain_client LIST_LEAGUES_ENDPOINT None
            (call_api Scenario.url_check (Scenario.always Scenario.unavailable)
                      Scenario.plain_client HEALTH_CHECK_ENDPOINT None
                      no_history).2).1.
Proof.
  apply (outcome_ignores_history Scenario.url_check
           (Scenario.always Scenario.unavailable)).
  reflexivity.
Defined.

(** X15. On a base URL that [httpx] accepts, two calls in a row issue
    two requests, in the order of the calls and after the earlier ones,
    however the first call ended; on a base URL that [httpx] rejects,
    neither call issues a request. *)
Theorem two_calls_two_requests
    (invalid_url : string -> option string)
    (send : nat -> Httpx.Request -> PyResult Httpx.Response)
    (self : SWCClient) (endpoint1 endpoint2 : string)
    (params1 params2 : option (gmap string PyVal)) (w : World) :
  (invalid_url (swc_base_url self) = None ->
   requests (call_api invalid_url send self endpoint2 params2
               (call_api invalid_url send self endpoint1 params1 w).2).2 =
     requests w ++ [request_of self endpoint1 params1;
                    request_of self endpoint2 params2]) /\
  (forall message,
     invalid_url (swc_base_url self) = Some message ->
     requests (call_api invalid_url send self endpoint2 params2
                 (call_api invalid_url send self endpoint1 params1 w).2).2 =
       requests w).
Proof.
  split.
  - intros Hurl. rewrite !call_api_requests by done. by rewrite <- app_assoc.
  - intros message Hurl.
    by rewrite !(call_api_rejected invalid_url send self _ _ _ message).
Qed.

(** Witness of X15 on an accepted base URL. *)
Lemma two_calls_two_requests_witness :
  requests (call_api Scenario.url_check Scenario.unreachable Scenario.plain_client
              LIST_TEAMS_ENDPOINT None
              (call_api Scenario.url_check Scenario.unreachable
                 Scenario.plain_client HEALTH_CHECK_ENDPOINT None no_history).2).2 =
    requests no_history
      ++ [request_of Scenario.plain_client HEALTH_CHECK_ENDPOINT None;
          request_of Scenario.plain_client LIST_TEAMS_ENDPOINT None].
Proof.
  apply (two_calls_two_requests Scenario.url_check Scenario.unreachable
           Scenario.plain_client HEALTH_CHECK_ENDPOINT LIST_TEAMS_ENDPOINT
           None None no_history).
  reflexivity.
Defined.

(** X16. Through the retry path a call that returns at the first attempt
    is a plain call: on a client built with backoff enabled, and for a
    decorator that hands back what its target returns, [get_url] returns
    the response [call_api] returns and leaves the same requests and log
    behind. *)
Theorem get_url_returns_like_call_api
    (invalid_url : string -> option string)
    (send : nat -> Httpx.Request -> PyResult Httpx.Response)
    (retry : Backoff.OnException -> M Httpx.Response -> M Httpx.Response)
    (cfg : Config.SWCConfig) (w : World) :
  returns_what_target_returns retry ->
  Config.swc_backoff cfg = true ->
  exists (self : SWCClient) (w' : World),
    init cfg w = (Returned self, w') /\
    forall api_endpoint api_params w0 r w1,
      call_api invalid_url send self api_endpoint api_params w0 = (Returned r, w1) ->
      call_get_url invalid_url send retry self api_endpoint api_params w0 =
        (Returned r, w1).
Proof.
  intros Hretry Hon.
  destruct (init_returns cfg w) as (self & Hrun & _ & _ & _ & _ & _ & Hget).
  rewrite Hon in Hget.
  exists self. eexists. split; [exact Hrun|].
  intros ep ps w0 r w1 Hcall.
  unfold call_get_url, getattr_get_url. rewrite Hget.
  unfold mbind, M_bind, mret, M_ret. by apply Hretry.
Qed.

(** Witness of X16 with the decorator that only calls its target. *)
Lemma get_url_returns_like_call_api_witness :
  exists (self : SWCClient) (w' : World),
    init Scenario.backoff_1s no_history = (Returned self, w') /\
    forall api_endpoint api_params w0 r w1,
      call_api Scenario.url_check (Scenario.always Scenario.unavailable) self
               api_endpoint api_params w0 = (Returned r, w1) ->
      call_get_url Scenario.url_check (Scenario.always Scenario.unavailable)
                   retry_never self api_endpoint api_params w0 = (Returned r, w1).
Proof.
  apply (get_url_returns_like_call_api Scenario.url_check
           (Scenario.always Scenario.unavailable)
           retry_never Scenario.backoff_1s no_history).
  - intros f target w r w' Htarget. exact Htarget.
  - reflexivity.
Defined.
